(** * matrix.py: closed-form 4x4 homogeneous matrix algebra

    A shallow embedding of [src/matrix.py].  The Python code is polymorphic
    in the cell type (numpy builds an integer or a float64 matrix from the
    literals it is given), so the matrix code is written once over a class
    of scalars and read at two instances:

    - [R], exact real arithmetic, where the algebraic identities are proved;
    - [float], the kernel's IEEE-754 binary64 numbers (numpy's float64),
      where the code is evaluated on concrete inputs, division by zero
      included.

    A statement proved at [R] is a statement about the formulas in exact
    arithmetic.  Where float64 departs from such a statement by more than
    rounding, the statement says "in exact real arithmetic" and the
    departure is evaluated at the [float] instance.  What is proved for
    every scalar type, or at [float], holds of the code as it runs.

    Python's scalar division raises [ZeroDivisionError] on a zero divisor
    while numpy's cell-wise division returns Inf/NaN; the two are kept
    apart ([pydiv] against the class's [div]). *)

From Stdlib Require Import Reals Lra Lia Floats Bool List.

Set Implicit Arguments.

(** ** Scalars *)

Class Scalar (T : Type) := {
  szero : T;
  sone : T;
  sadd : T -> T -> T;
  ssub : T -> T -> T;
  smul : T -> T -> T;
  (* numpy's true division of cells: total, Inf/NaN on a zero divisor *)
  sdiv : T -> T -> T;
  sneg : T -> T;
  (* Python's [x == 0] *)
  eq_zero : T -> bool
}.

Declare Scope scalar_scope.
Delimit Scope scalar_scope with S.
Notation "0" := szero : scalar_scope.
Notation "1" := sone : scalar_scope.
Infix "+" := sadd : scalar_scope.
Infix "-" := ssub : scalar_scope.
Infix "*" := smul : scalar_scope.
Infix "/" := sdiv : scalar_scope.
Notation "- x" := (sneg x) : scalar_scope.

#[export] Instance R_scalar : Scalar R := {|
  szero := 0%R;
  sone := 1%R;
  sadd := Rplus;
  ssub := Rminus;
  smul := Rmult;
  sdiv := Rdiv;
  sneg := Ropp;
  eq_zero := fun x => if Req_dec_T x 0%R then true else false
|}.

#[export] Instance float_scalar : Scalar float := {|
  szero := 0%float;
  sone := 1%float;
  sadd := PrimFloat.add;
  ssub := PrimFloat.sub;
  smul := PrimFloat.mul;
  sdiv := PrimFloat.div;
  sneg := PrimFloat.opp;
  eq_zero := fun x => PrimFloat.eqb x 0%float
|}.

(** ** Exceptions *)

Inductive exn : Set :=
| ZeroDivisionError
| LinAlgError.

Inductive result (A : Type) : Type :=
| Ok (a : A)
| Raise (e : exn).

Arguments Ok {A} a.
Arguments Raise {A} e.

Definition bind {A B : Type} (r : result A) (k : A -> result B) : result B :=
  match r with
  | Ok a => k a
  | Raise e => Raise e
  end.

Notation "x <- r ;; k" := (bind r (fun x => k))
  (at level 61, r at next level, right associativity).

(** Python's [x / y] on Python numbers. *)
Definition pydiv {T : Type} `{Scalar T} (x y : T) : result T :=
  if eq_zero y then Raise ZeroDivisionError else Ok (x / y)%S.

(** ** Matrix4 and homogeneous coordinates *)

Section Matrix4.

Context {T : Type} `{Scalar T}.
Local Open Scope scalar_scope.

Record vec4 : Type := V4 { vx : T; vy : T; vz : T; vw : T }.

Record matrix : Type := M4 { row0 : vec4; row1 : vec4; row2 : vec4; row3 : vec4 }.

(** [v[j]]; the source only indexes with the literals 0..3 (numpy raises
    IndexError outside, a case that never arises). *)
Definition vget (v : vec4) (j : nat) : T :=
  match j with
  | 0%nat => vx v
  | 1%nat => vy v
  | 2%nat => vz v
  | 3%nat => vw v
  | _ => 0
  end.

Definition mrow (m : matrix) (i : nat) : vec4 :=
  match i with
  | 0%nat => row0 m
  | 1%nat => row1 m
  | 2%nat => row2 m
  | 3%nat => row3 m
  | _ => V4 0 0 0 0
  end.

(** [m[i,j]] *)
Definition mget (m : matrix) (i j : nat) : T := vget (mrow m i) j.

Definition mcol (m : matrix) (j : nat) : vec4 :=
  V4 (mget m 0 j) (mget m 1 j) (mget m 2 j) (mget m 3 j).

(** [np.identity(4)] *)
Definition identity : matrix :=
  M4 (V4 1 0 0 0)
     (V4 0 1 0 0)
     (V4 0 0 1 0)
     (V4 0 0 0 1).

(** [m.T] *)
Definition transpose (m : matrix) : matrix :=
  M4 (mcol m 0) (mcol m 1) (mcol m 2) (mcol m 3).

(** [np.dot] of two 4-vectors *)
Definition dot (a b : vec4) : T :=
  vx a * vx b + vy a * vy b + vz a * vz b + vw a * vw b.

(** [v * m] for a row vector [v]: numpy's matrix product of a 1x4 by a 4x4 *)
Definition vmul (v : vec4) (m : matrix) : vec4 :=
  V4 (dot v (mcol m 0)) (dot v (mcol m 1)) (dot v (mcol m 2)) (dot v (mcol m 3)).

(** [m1 * m2] on [np.matrix]: the matrix product *)
Definition mmul (m1 m2 : matrix) : matrix :=
  M4 (vmul (row0 m1) m2) (vmul (row1 m1) m2) (vmul (row2 m1) m2) (vmul (row3 m1) m2).

(** [v / d] and [n / d]: numpy's cell-wise division by a scalar *)
Definition vdiv (v : vec4) (d : T) : vec4 :=
  V4 (vx v / d) (vy v / d) (vz v / d) (vw v / d).

Definition mdiv (n : matrix) (d : T) : matrix :=
  M4 (vdiv (row0 n) d) (vdiv (row1 n) d) (vdiv (row2 n) d) (vdiv (row3 n) d).

Definition translate (x y z : T) : matrix :=
  M4 (V4 1 0 0 0)
     (V4 0 1 0 0)
     (V4 0 0 1 0)
     (V4 x y z 1).

Definition scale (x y z : T) : matrix :=
  M4 (V4 x 0 0 0)
     (V4 0 y 0 0)
     (V4 0 0 z 0)
     (V4 0 0 0 1).

(** The shader-style product: each cell is the dp4 of a row of [m1] with a
    row of the transposed [m2]. *)
Definition multiply (m1 m2 : matrix) : matrix :=
  let t := transpose m2 in
  let r (y : nat) := V4 (dot (mrow m1 y) (mrow t 0)) (dot (mrow m1 y) (mrow t 1))
                        (dot (mrow m1 y) (mrow t 2)) (dot (mrow m1 y) (mrow t 3)) in
  M4 (r 0%nat) (r 1%nat) (r 2%nat) (r 3%nat).

End Matrix4.

Arguments vec4 T : clear implicits.
Arguments matrix T : clear implicits.

(** ** Determinant and inverse *)

Section Algebra.

Context {T : Type} `{Scalar T}.
Local Open Scope scalar_scope.

Local Notation "m .[ i , j ]" := (mget m i%nat j%nat)
  (at level 1, i at level 200, j at level 200, left associativity,
   format "m .[ i , j ]").

Definition determinant (m : matrix T) : T :=
  m.[0,3]*m.[1,2]*m.[2,1]*m.[3,0] - m.[0,2]*m.[1,3]*m.[2,1]*m.[3,0] - m.[0,3]*m.[1,1]*m.[2,2]*m.[3,0] + m.[0,1]*m.[1,3]*m.[2,2]*m.[3,0] +
  m.[0,2]*m.[1,1]*m.[2,3]*m.[3,0] - m.[0,1]*m.[1,2]*m.[2,3]*m.[3,0] - m.[0,3]*m.[1,2]*m.[2,0]*m.[3,1] + m.[0,2]*m.[1,3]*m.[2,0]*m.[3,1] +
  m.[0,3]*m.[1,0]*m.[2,2]*m.[3,1] - m.[0,0]*m.[1,3]*m.[2,2]*m.[3,1] - m.[0,2]*m.[1,0]*m.[2,3]*m.[3,1] + m.[0,0]*m.[1,2]*m.[2,3]*m.[3,1] +
  m.[0,3]*m.[1,1]*m.[2,0]*m.[3,2] - m.[0,1]*m.[1,3]*m.[2,0]*m.[3,2] - m.[0,3]*m.[1,0]*m.[2,1]*m.[3,2] + m.[0,0]*m.[1,3]*m.[2,1]*m.[3,2] +
  m.[0,1]*m.[1,0]*m.[2,3]*m.[3,2] - m.[0,0]*m.[1,1]*m.[2,3]*m.[3,2] - m.[0,2]*m.[1,1]*m.[2,0]*m.[3,3] + m.[0,1]*m.[1,2]*m.[2,0]*m.[3,3] +
  m.[0,2]*m.[1,0]*m.[2,1]*m.[3,3] - m.[0,0]*m.[1,2]*m.[2,1]*m.[3,3] - m.[0,1]*m.[1,0]*m.[2,2]*m.[3,3] + m.[0,0]*m.[1,1]*m.[2,2]*m.[3,3].

Definition determinant_euclidean (m : matrix T) : T :=
  0
  + (m.[0,0]*m.[1,1]*m.[2,2])
  - (m.[0,0]*m.[1,2]*m.[2,1])
  + (m.[0,1]*m.[1,2]*m.[2,0])
  - (m.[0,1]*m.[1,0]*m.[2,2])
  + (m.[0,2]*m.[1,0]*m.[2,1])
  - (m.[0,2]*m.[1,1]*m.[2,0]).

(** The sixteen cells [n[i,j]] that [_inverse] fills in before it divides:
    the cofactor (adjugate) matrix. *)
Definition adjugate (m : matrix T) : matrix T :=
  let n00 := m.[1,2]*m.[2,3]*m.[3,1] - m.[1,3]*m.[2,2]*m.[3,1] + m.[1,3]*m.[2,1]*m.[3,2] - m.[1,1]*m.[2,3]*m.[3,2] - m.[1,2]*m.[2,1]*m.[3,3] + m.[1,1]*m.[2,2]*m.[3,3] in
  let n01 := m.[0,3]*m.[2,2]*m.[3,1] - m.[0,2]*m.[2,3]*m.[3,1] - m.[0,3]*m.[2,1]*m.[3,2] + m.[0,1]*m.[2,3]*m.[3,2] + m.[0,2]*m.[2,1]*m.[3,3] - m.[0,1]*m.[2,2]*m.[3,3] in
  let n02 := m.[0,2]*m.[1,3]*m.[3,1] - m.[0,3]*m.[1,2]*m.[3,1] + m.[0,3]*m.[1,1]*m.[3,2] - m.[0,1]*m.[1,3]*m.[3,2] - m.[0,2]*m.[1,1]*m.[3,3] + m.[0,1]*m.[1,2]*m.[3,3] in
  let n03 := m.[0,3]*m.[1,2]*m.[2,1] - m.[0,2]*m.[1,3]*m.[2,1] - m.[0,3]*m.[1,1]*m.[2,2] + m.[0,1]*m.[1,3]*m.[2,2] + m.[0,2]*m.[1,1]*m.[2,3] - m.[0,1]*m.[1,2]*m.[2,3] in
  let n10 := m.[1,3]*m.[2,2]*m.[3,0] - m.[1,2]*m.[2,3]*m.[3,0] - m.[1,3]*m.[2,0]*m.[3,2] + m.[1,0]*m.[2,3]*m.[3,2] + m.[1,2]*m.[2,0]*m.[3,3] - m.[1,0]*m.[2,2]*m.[3,3] in
  let n11 := m.[0,2]*m.[2,3]*m.[3,0] - m.[0,3]*m.[2,2]*m.[3,0] + m.[0,3]*m.[2,0]*m.[3,2] - m.[0,0]*m.[2,3]*m.[3,2] - m.[0,2]*m.[2,0]*m.[3,3] + m.[0,0]*m.[2,2]*m.[3,3] in
  let n12 := m.[0,3]*m.[1,2]*m.[3,0] - m.[0,2]*m.[1,3]*m.[3,0] - m.[0,3]*m.[1,0]*m.[3,2] + m.[0,0]*m.[1,3]*m.[3,2] + m.[0,2]*m.[1,0]*m.[3,3] - m.[0,0]*m.[1,2]*m.[3,3] in
  let n13 := m.[0,2]*m.[1,3]*m.[2,0] - m.[0,3]*m.[1,2]*m.[2,0] + m.[0,3]*m.[1,0]*m.[2,2] - m.[0,0]*m.[1,3]*m.[2,2] - m.[0,2]*m.[1,0]*m.[2,3] + m.[0,0]*m.[1,2]*m.[2,3] in
  let n20 := m.[1,1]*m.[2,3]*m.[3,0] - m.[1,3]*m.[2,1]*m.[3,0] + m.[1,3]*m.[2,0]*m.[3,1] - m.[1,0]*m.[2,3]*m.[3,1] - m.[1,1]*m.[2,0]*m.[3,3] + m.[1,0]*m.[2,1]*m.[3,3] in
  let n21 := m.[0,3]*m.[2,1]*m.[3,0] - m.[0,1]*m.[2,3]*m.[3,0] - m.[0,3]*m.[2,0]*m.[3,1] + m.[0,0]*m.[2,3]*m.[3,1] + m.[0,1]*m.[2,0]*m.[3,3] - m.[0,0]*m.[2,1]*m.[3,3] in
  let n22 := m.[0,1]*m.[1,3]*m.[3,0] - m.[0,3]*m.[1,1]*m.[3,0] + m.[0,3]*m.[1,0]*m.[3,1] - m.[0,0]*m.[1,3]*m.[3,1] - m.[0,1]*m.[1,0]*m.[3,3] + m.[0,0]*m.[1,1]*m.[3,3] in
  let n23 := m.[0,3]*m.[1,1]*m.[2,0] - m.[0,1]*m.[1,3]*m.[2,0] - m.[0,3]*m.[1,0]*m.[2,1] + m.[0,0]*m.[1,3]*m.[2,1] + m.[0,1]*m.[1,0]*m.[2,3] - m.[0,0]*m.[1,1]*m.[2,3] in
  let n30 := m.[1,2]*m.[2,1]*m.[3,0] - m.[1,1]*m.[2,2]*m.[3,0] - m.[1,2]*m.[2,0]*m.[3,1] + m.[1,0]*m.[2,2]*m.[3,1] + m.[1,1]*m.[2,0]*m.[3,2] - m.[1,0]*m.[2,1]*m.[3,2] in
  let n31 := m.[0,1]*m.[2,2]*m.[3,0] - m.[0,2]*m.[2,1]*m.[3,0] + m.[0,2]*m.[2,0]*m.[3,1] - m.[0,0]*m.[2,2]*m.[3,1] - m.[0,1]*m.[2,0]*m.[3,2] + m.[0,0]*m.[2,1]*m.[3,2] in
  let n32 := m.[0,2]*m.[1,1]*m.[3,0] - m.[0,1]*m.[1,2]*m.[3,0] - m.[0,2]*m.[1,0]*m.[3,1] + m.[0,0]*m.[1,2]*m.[3,1] + m.[0,1]*m.[1,0]*m.[3,2] - m.[0,0]*m.[1,1]*m.[3,2] in
  let n33 := m.[0,1]*m.[1,2]*m.[2,0] - m.[0,2]*m.[1,1]*m.[2,0] + m.[0,2]*m.[1,0]*m.[2,1] - m.[0,0]*m.[1,2]*m.[2,1] - m.[0,1]*m.[1,0]*m.[2,2] + m.[0,0]*m.[1,1]*m.[2,2] in
  M4 (V4 n00 n01 n02 n03)
     (V4 n10 n11 n12 n13)
     (V4 n20 n21 n22 n23)
     (V4 n30 n31 n32 n33).

Definition _inverse (m : matrix T) (d : T) : matrix T :=
  mdiv (adjugate m) d.

Definition inverse (m : matrix T) : matrix T :=
  _inverse m (determinant m).

(** The cells [n[i,j]] that [_inverse_euclidean] fills in before it
    divides; row 3 reads the cells already stored in [n]. *)
Definition adjugate_euclidean (m : matrix T) : matrix T :=
  let n00 := m.[1,1]*m.[2,2] - m.[1,2]*m.[2,1] in
  let n10 := m.[1,2]*m.[2,0] - m.[1,0]*m.[2,2] in
  let n20 := m.[1,0]*m.[2,1] - m.[1,1]*m.[2,0] in
  let n01 := m.[0,2]*m.[2,1] - m.[0,1]*m.[2,2] in
  let n11 := m.[0,0]*m.[2,2] - m.[0,2]*m.[2,0] in
  let n21 := m.[0,1]*m.[2,0] - m.[0,0]*m.[2,1] in
  let n02 := m.[0,1]*m.[1,2] - m.[0,2]*m.[1,1] in
  let n12 := m.[0,2]*m.[1,0] - m.[0,0]*m.[1,2] in
  let n22 := m.[0,0]*m.[1,1] - m.[0,1]*m.[1,0] in
  let n03 := 0 in
  let n13 := 0 in
  let n23 := 0 in
  let n30 := - m.[3,0]*n00 - m.[3,1]*n10 - m.[3,2]*n20 in
  let n31 := - m.[3,0]*n01 - m.[3,1]*n11 - m.[3,2]*n21 in
  let n32 := - m.[3,0]*n02 - m.[3,1]*n12 - m.[3,2]*n22 in
  let n33 :=   m.[0,0]*n00 + m.[0,1]*n10 + m.[0,2]*n20 in
  M4 (V4 n00 n01 n02 n03)
     (V4 n10 n11 n12 n13)
     (V4 n20 n21 n22 n23)
     (V4 n30 n31 n32 n33).

Definition _inverse_euclidean (m : matrix T) (d : T) : matrix T :=
  mdiv (adjugate_euclidean m) d.

Definition inverse_euclidean (m : matrix T) : matrix T :=
  _inverse_euclidean m (determinant_euclidean m).

(** First row of the Euclidean inverse. *)
Definition inverse_matrix_euclidean_m0 (m : matrix T) (d : T) : vec4 T :=
  let m00 := m.[1,1]*m.[2,2] - m.[1,2]*m.[2,1] in
  let m01 := m.[0,2]*m.[2,1] - m.[0,1]*m.[2,2] in
  let m02 := m.[0,1]*m.[1,2] - m.[0,2]*m.[1,1] in
  V4 (m00 / d) (m01 / d) (m02 / d) 0.

Definition mv_mvp_m00i (mv mvp : matrix T) : T :=
  let d := determinant_euclidean mv in
  let mvi := inverse_matrix_euclidean_m0 mv d in
  let p00 := (vget mvi 0 * mvp.[0,0] +
              vget mvi 1 * mvp.[1,0] +
              vget mvi 2 * mvp.[2,0]) in
  1 / p00.

(** The last column is exactly (0,0,0,1). *)
Definition euclidean (m : matrix T) : Prop :=
  m.[0,3] = 0 /\ m.[1,3] = 0 /\ m.[2,3] = 0 /\ m.[3,3] = 1.

(** The two matrices agree on the upper-left 3x3 block. *)
Definition agree3 (a b : matrix T) : Prop :=
  forall i j : nat, (i < 3)%nat -> (j < 3)%nat -> mget a i j = mget b i j.

End Algebra.

(** ** Stereo correction and near/far recovery *)

Section Stereo.

Context {T : Type} `{Scalar T}.
Local Open Scope scalar_scope.

Definition nv_equiv_multiplier (near far sep conv : T) : result (matrix T) :=
  q <- pydiv far (far - near) ;;
  c20 <- pydiv (sep*conv) (q*near) ;;
  t <- pydiv (sep*conv) near ;;
  Ok (M4 (V4 1   0 0 0)
         (V4 0   1 0 0)
         (V4 c20 0 1 0)
         (V4 (sep - t) 0 0 1)).

Definition nv_equiv_multiplier_inv (near far sep conv : T) : result (matrix T) :=
  q <- pydiv far (far - near) ;;
  c20 <- pydiv (-(sep*conv)) (q*near) ;;
  t <- pydiv (sep*conv) near ;;
  Ok (M4 (V4 1   0 0 0)
         (V4 0   1 0 0)
         (V4 c20 0 1 0)
         (V4 (-sep + t) 0 0 1)).

(** [find_near_far]; [np_inv] stands for numpy's [m.I] (numpy.linalg.inv),
    which is not code of this repository: it returns the inverse matrix or
    raises on a singular one. *)
Definition find_near_far (np_inv : matrix T -> result (matrix T)) (m : matrix T)
  : result (T * T) :=
  mi <- np_inv m ;;
  let near_origin := vmul (V4 0 0 0 1) mi in
  let near_origin := vdiv near_origin (vget near_origin 3) in
  let near := vget (vmul near_origin m) 3 in
  mi <- np_inv m ;;
  let far_origin := vmul (V4 0 0 1 1) mi in
  let far_origin := vdiv far_origin (vget far_origin 3) in
  let far := vget (vmul far_origin m) 3 in
  Ok (near, far).

End Stereo.

(** ** Python's [math] module

    [math.tan], [math.radians] and the literal 2 of [radians(fov) / 2], for
    each scalar type.  Over the reals they are the real tangent and
    x * (PI / 180).  Python's tangent differs from the real one where the
    real one has a pole or a zero other than 0 (half angles of 90 and 180
    degrees): Python's is finite and nonzero there.  Rocq has no float64
    tangent: [float_tan] tabulates the values CPython returns at the half
    angles of 90, 180, 270 and 360 degrees, the only ones evaluated below. *)

Class PyMath (T : Type) := {
  math_tan : T -> T;
  math_radians : T -> T;
  stwo : T
}.

(** [math.radians], [math.degrees] *)
Definition radians (x : R) : R := (x * (PI / 180))%R.
Definition degrees (x : R) : R := (x * (180 / PI))%R.

#[export] Instance R_math : PyMath R := {|
  math_tan := tan;
  math_radians := radians;
  stwo := 2%R
|}.

(** CPython: [x * (pi / 180.0)], the factor being 0.017453292519943295. *)
Definition float_radians (x : float) : float :=
  (x * 0x1.1df46a2529d39p-6)%float.

Definition float_tan (x : float) : float :=
  (if x =? 0x1.921fb54442d18p-1 then 0x1.fffffffffffffp-1      (* 0.9999999999999999 *)
   else if x =? 0x1.921fb54442d18p+0 then 0x1.d02967c31cdb5p+53 (* 1.633123935319537e+16 *)
   else if x =? 0x1.2d97c7f3321d2p+1 then -0x1.0000000000001p+0 (* -1.0000000000000002 *)
   else if x =? 0x1.921fb54442d18p+1 then -0x1.1a62633145c07p-53 (* -1.2246467991473532e-16 *)
   else nan)%float.

#[export] Instance float_math : PyMath float := {|
  math_tan := float_tan;
  math_radians := float_radians;
  stwo := 2%float
|}.

(** ** Projection *)

Section Projection.

Context {T : Type} `{Scalar T} `{PyMath T}.
Local Open Scope scalar_scope.

Definition projection (near far fov_horiz fov_vert : T) : result (matrix T) :=
  w <- pydiv 1 (math_tan (math_radians fov_horiz / stwo)) ;;
  h <- pydiv 1 (math_tan (math_radians fov_vert / stwo)) ;;
  q <- pydiv far (far - near) ;;
  Ok (M4 (V4 w 0 0 0)
         (V4 0 h 0 0)
         (V4 0 0 q 1)
         (V4 0 0 (-q*near) 0)).

Definition projection_nv_equiv (near far fov_horiz fov_vert separation convergence : T)
  : result (matrix T * matrix T) :=
  w <- pydiv 1 (math_tan (math_radians fov_horiz / stwo)) ;;
  h <- pydiv 1 (math_tan (math_radians fov_vert / stwo)) ;;
  q <- pydiv far (far - near) ;;
  let left :=
    M4 (V4 w 0 0 0)
       (V4 0 h 0 0)
       (V4 (-separation) 0 q 1)
       (V4 (separation*convergence) 0 (-q*near) 0) in
  let right :=
    M4 (V4 w 0 0 0)
       (V4 0 h 0 0)
       (V4 separation 0 q 1)
       (V4 (-separation*convergence) 0 (-q*near) 0) in
  Ok (left, right).

End Projection.

Section ProjectionQueries.

Local Open Scope R_scope.

Definition fov_w (m : matrix R) : R := degrees (2 * atan (1 / mget m 0 0)).

Definition fov_h (m : matrix R) : R := degrees (2 * atan (1 / mget m 1 1)).

(** The parameter domain of the specification. *)
Definition valid_projection (near far fov_horiz fov_vert : R) : Prop :=
  0 < near /\ near < far /\
  0 < fov_horiz /\ fov_horiz < 180 /\
  0 < fov_vert /\ fov_vert < 180.

End ProjectionQueries.

(** ** Predicates and sample inputs used by the statements below *)

(** Every cell of the matrix satisfies the boolean test. *)
Definition all_cells {T : Type} (p : T -> bool) (m : matrix T) : bool :=
  let row (v : vec4 T) := p (vx v) && p (vy v) && p (vz v) && p (vw v) in
  row (row0 m) && row (row1 m) && row (row2 m) && row (row3 m).

(** The cell is NaN or an infinity. *)
Definition nan_or_inf (x : float) : bool :=
  PrimFloat.is_nan x || PrimFloat.is_infinity x.

(** numpy.linalg.inv in exact arithmetic: the inverse, or LinAlgError on a
    singular matrix. *)
Definition exact_inv (m : matrix R) : result (matrix R) :=
  if eq_zero (determinant m) then Raise LinAlgError else Ok (inverse m).

(** A general matrix of determinant 23. *)
Definition sample_general : matrix R :=
  (M4 (V4 1 2 0 1)
      (V4 0 1 3 0)
      (V4 2 0 1 1)
      (V4 0 1 0 2))%R.

(** A model-view matrix (axis swap, scale and translation), determinant 6. *)
Definition sample_mv : matrix R :=
  (M4 (V4 2 0    0 0)
      (V4 0 0    3 0)
      (V4 0 (-1) 0 0)
      (V4 1 2    3 1))%R.

(** A singular matrix: rows 0 and 1 are identical. *)
Definition singular_rows : matrix float :=
  (M4 (V4 1 2 3 4)
      (V4 1 2 3 4)
      (V4 0 1 0 2)
      (V4 2 0 1 1))%float.

(** A model-view matrix in float64, determinant 8. *)
Definition float_mv : matrix float :=
  (M4 (V4 2 0    0 0)
      (V4 0 0    4 0)
      (V4 0 (-1) 0 0)
      (V4 1 2    3 1))%float.

(** The projection matrix of near = 1, far = 2 (q = 2) with w = 0.5, h = 1. *)
Definition float_projection : matrix float :=
  (M4 (V4 0.5 0 0    0)
      (V4 0   1 0    0)
      (V4 0   0 2    1)
      (V4 0   0 (-2) 0))%float.

(** Two matrices with the same upper-left 3x3 block; the second is not
    Euclidean. *)
Definition block_a : matrix float :=
  (M4 (V4 2 0 1 0)
      (V4 0 3 0 0)
      (V4 1 0 1 0)
      (V4 5 6 7 1))%float.

Definition block_b : matrix float :=
  (M4 (V4 2 0 1 9)
      (V4 0 3 0 8)
      (V4 1 0 1 7)
      (V4 0 0 0 4))%float.

(** The two matrices agree on their first three columns. *)
Definition agree_cols3 {T : Type} `{Scalar T} (a b : matrix T) : Prop :=
  forall i j : nat, (i < 4)%nat -> (j < 3)%nat -> mget a i j = mget b i j.

(** ** Point correction *)

Section Correct.

Context {T : Type} `{Scalar T}.
Local Open Scope scalar_scope.

Definition adjustment (w separation convergence : T) : T :=
  separation * (w - convergence).

(** [correct]: the left and the right point of a homogeneous coordinate. *)
Definition correct (coord : vec4 T) (separation convergence : T)
  : vec4 T * vec4 T :=
  let x := vx coord in
  let y := vy coord in
  let z := vz coord in
  let w := vw coord in
  let a := adjustment w separation convergence in
  (V4 (x-a) y z w, V4 (x+a) y z w).

End Correct.

(** ** Rotations *)

Section Rotations.

Local Open Scope R_scope.

Definition rotate_x (angle : R) : matrix R :=
  let a := radians angle in
  M4 (V4 1       0       0 0)
     (V4 0  (cos a) (sin a) 0)
     (V4 0 (-sin a) (cos a) 0)
     (V4 0       0       0 1).

Definition rotate_y (angle : R) : matrix R :=
  let a := radians angle in
  M4 (V4 (cos a) 0 (-sin a) 0)
     (V4      0  1       0  0)
     (V4 (sin a) 0  (cos a) 0)
     (V4      0  0       0  1).

Definition rotate_z (angle : R) : matrix R :=
  let a := radians angle in
  M4 (V4  (cos a) (sin a) 0 0)
     (V4 (-sin a) (cos a) 0 0)
     (V4       0       0  1 0)
     (V4       0       0  0 1).

End Rotations.

(** ** The register mirror of the Euclidean formulas *)

(** A lane of a 4-wide register. *)
Inductive lane : Set := LX | LY | LZ | LW.

Section Registers.

Context {T : Type} `{Scalar T}.
Local Open Scope scalar_scope.

Record vec3 : Type := V3 { v3x : T; v3y : T; v3z : T }.

(** Modelled from the spec: pyasm, the register abstraction the source
    imports, is not among the sources.  A register is a 4-wide vector; a
    swizzle reads the named lanes in the order written; [mul], [mad] and
    [add] work lane by lane ([mad a b c] is [a*b + c]); [rcp] is the
    reciprocal; [mov] copies; a write to [r.xyz] or [r.x] replaces those
    lanes and keeps the others. *)
Definition lane_of (r : vec4 T) (l : lane) : T :=
  match l with
  | LX => vx r
  | LY => vy r
  | LZ => vz r
  | LW => vw r
  end.

Definition swz3 (r : vec4 T) (a b c : lane) : vec3 :=
  V3 (lane_of r a) (lane_of r b) (lane_of r c).

Definition swz4 (r : vec4 T) (a b c d : lane) : vec4 T :=
  V4 (lane_of r a) (lane_of r b) (lane_of r c) (lane_of r d).

Definition neg3 (v : vec3) : vec3 := V3 (- v3x v) (- v3y v) (- v3z v).

Definition neg4 (v : vec4 T) : vec4 T := V4 (- vx v) (- vy v) (- vz v) (- vw v).

Definition mul3 (a b : vec3) : vec3 :=
  V3 (v3x a * v3x b) (v3y a * v3y b) (v3z a * v3z b).

Definition mad3 (a b c : vec3) : vec3 :=
  V3 (v3x a * v3x b + v3x c) (v3y a * v3y b + v3y c) (v3z a * v3z b + v3z c).

Definition mul4 (a b : vec4 T) : vec4 T :=
  V4 (vx a * vx b) (vy a * vy b) (vz a * vz b) (vw a * vw b).

Definition mad4 (a b c : vec4 T) : vec4 T :=
  V4 (vx a * vx b + vx c) (vy a * vy b + vy c) (vz a * vz b + vz c) (vw a * vw b + vw c).

Definition rcp (x : T) : T := 1 / x.

Definition set_xyz (r : vec4 T) (v : vec3) : vec4 T :=
  V4 (v3x v) (v3y v) (v3z v) (vw r).

Definition set_x (r : vec4 T) (s : T) : vec4 T := V4 s (vy r) (vz r) (vw r).

Definition set_y (r : vec4 T) (s : T) : vec4 T := V4 (vx r) s (vz r) (vw r).

(** [m.T.tolist()[i]] is column [i] of [m]. *)
Definition col_major_regs (m : matrix T) : vec4 T * vec4 T * vec4 T * vec4 T :=
  (mcol m 0, mcol m 1, mcol m 2, mcol m 3).

(** What a fresh [pyasm.Register()] holds. *)
Variable fresh : vec4 T.

Definition _determinant_euclidean_asm_col_major (col0 col1 col2 : vec4 T) : vec4 T :=
  let tmp0 := fresh in
  let det := fresh in
  let tmp0 := set_xyz tmp0 (mul3 (swz3 col0 LZ LX LY) (swz3 col1 LY LZ LX)) in
  let tmp0 := set_xyz tmp0 (mad3 (swz3 col0 LY LZ LX) (swz3 col1 LZ LX LY)
                                 (neg3 (swz3 tmp0 LX LY LZ))) in
  let tmp0 := set_xyz tmp0 (mul3 (swz3 tmp0 LX LY LZ) (swz3 col2 LX LY LZ)) in
  let det := set_x det (vx tmp0 + vy tmp0) in
  let det := set_x det (vx det + vz tmp0) in
  det.

Definition determinant_euclidean_asm_col_major (m : matrix T) : vec4 T :=
  let '(col0, col1, col2, _) := col_major_regs m in
  _determinant_euclidean_asm_col_major col0 col1 col2.

(** The four returned registers are the rows of the inverse. *)
Definition _inverse_euclidean_asm_col_major (col0 col1 col2 det : vec4 T)
  : vec4 T * vec4 T * vec4 T * vec4 T :=
  let two := 1 + 1 in
  let std_consts := V4 0 1 (1 / (two * two * two * two)) (1 / two) in
  let dst0 := fresh in
  let dst1 := fresh in
  let dst2 := fresh in
  let dst3 := fresh in
  let inv_det := fresh in
  let dst0 := set_xyz dst0 (mul3 (swz3 col1 LZ LX LY) (swz3 col2 LY LZ LX)) in
  let dst0 := set_xyz dst0 (mad3 (swz3 col1 LY LZ LX) (swz3 col2 LZ LX LY)
                                 (neg3 (swz3 dst0 LX LY LZ))) in
  let dst1 := set_xyz dst1 (mul3 (swz3 col0 LY LZ LX) (swz3 col2 LZ LX LY)) in
  let dst1 := set_xyz dst1 (mad3 (swz3 col0 LZ LX LY) (swz3 col2 LY LZ LX)
                                 (neg3 (swz3 dst1 LX LY LZ))) in
  let dst2 := set_xyz dst2 (mul3 (swz3 col0 LZ LX LY) (swz3 col1 LY LZ LX)) in
  let dst2 := set_xyz dst2 (mad3 (swz3 col0 LY LZ LX) (swz3 col1 LZ LX LY)
                                 (neg3 (swz3 dst2 LX LY LZ))) in
  let dst3 := mul4 (swz4 col0 LW LW LW LX) (swz4 dst0 LX LY LZ LX) in
  let dst3 := mad4 (swz4 col1 LW LW LW LX) (swz4 dst1 LX LY LZ LX) dst3 in
  let dst3 := mad4 (swz4 col2 LW LW LW LX) (swz4 dst2 LX LY LZ LX) dst3 in
  let dst3 := set_xyz dst3 (swz3 (neg4 dst3) LX LY LZ) in
  let inv_det := set_x inv_det (rcp (vx det)) in
  let inv_det := set_y inv_det (vx std_consts) in
  let dst0 := mul4 dst0 (swz4 inv_det LX LX LX LY) in
  let dst1 := mul4 dst1 (swz4 inv_det LX LX LX LY) in
  let dst2 := mul4 dst2 (swz4 inv_det LX LX LX LY) in
  let dst3 := mul4 dst3 (swz4 inv_det LX LX LX LX) in
  (dst0, dst1, dst2, dst3).

Definition inverse_euclidean_asm_col_major (m : matrix T)
  : vec4 T * vec4 T * vec4 T * vec4 T :=
  let '(col0, col1, col2, _) := col_major_regs m in
  let det := _determinant_euclidean_asm_col_major col0 col1 col2 in
  _inverse_euclidean_asm_col_major col0 col1 col2 det.

End Registers.

Arguments vec3 T : clear implicits.

(** ** The random generators, the draws being inputs *)

Section Generators.

Local Open Scope R_scope.

(** One round of the loop of [random_euclidean_matrix]: the choice drawn by
    [random.randrange(5)] with the values of [random.random()] it goes
    on to draw. *)
Inductive draw : Type :=
| DrawTranslate (r1 r2 r3 : R)
| DrawScale (r1 r2 r3 : R)
| DrawRotateX (r : R)
| DrawRotateY (r : R)
| DrawRotateZ (r : R).

Definition euclidean_step (multiplier : R) (d : draw) : matrix R :=
  match d with
  | DrawTranslate r1 r2 r3 =>
      translate (r1 * multiplier) (r2 * multiplier) (r3 * multiplier)
  | DrawScale r1 r2 r3 =>
      scale (r1 * multiplier) (r2 * multiplier) (r3 * multiplier)
  | DrawRotateX r => rotate_x (r * 180)
  | DrawRotateY r => rotate_y (r * 180)
  | DrawRotateZ r => rotate_z (r * 180)
  end.

(** [random_euclidean_matrix]: [draws] lists the rounds of the loop, in
    order. *)
Definition random_euclidean_matrix (multiplier : R) (draws : list draw) : matrix R :=
  fold_left (fun m d => mmul m (euclidean_step multiplier d)) draws identity.

(** [random_projection_matrix]: [r1], [r2] are the two values of
    [random.random()], [fov_h], [fov_v] those of [random.uniform]. *)
Definition random_projection_matrix (r1 r2 fov_h fov_v : R) : result (matrix R) :=
  let near := r1 * 10 + 1e-45 in
  let far := near + r2 * 1000 in
  projection near far fov_h fov_v.

Definition random_mvp (draws : list draw) (r1 r2 fov_h fov_v : R) : result (matrix R) :=
  let mv := random_euclidean_matrix 1 draws in
  p <- random_projection_matrix r1 r2 fov_h fov_v ;;
  Ok (mmul mv p).

(** The range of [random.random()]. *)
Definition unit_draw (r : R) : Prop := 0 <= r < 1.

(** The determinant a round contributes: the product of the three factors
    of a scale, 1 for a translation or a rotation. *)
Definition draw_determinant (multiplier : R) (d : draw) : R :=
  match d with
  | DrawScale r1 r2 r3 => (r1 * multiplier) * (r2 * multiplier) * (r3 * multiplier)
  | _ => 1
  end.

(** An off-centre, stereo-corrected projection matrix: first row (w,0,0,0),
    shear cells in rows 2 and 3. *)
Definition sample_off_centre : matrix R :=
  M4 (V4 2        0       0    0)
     (V4 0        1       0    0)
     (V4 (1 / 4)  (1 / 8) 2    1)
     (V4 (-1 / 8) 0       (-2) 0).

(** Three rounds of the loop: a scale, a rotation and a translation. *)
Definition sample_draws : list draw :=
  DrawScale (1 / 2) (1 / 4) (1 / 2) :: DrawRotateZ (1 / 2)
    :: DrawTranslate (1 / 4) (1 / 2) (3 / 4) :: nil.

End Generators.

(** The determinant of the upper-left 3x3 block by the Leibniz formula: the
    sum, over the permutations (p0,p1,p2) of (0,1,2), of
    m[0,p0] * m[1,p1] * m[2,p2] with the sign of the permutation (even or odd
    number of inversions). *)
Definition permutations3 : list (nat * nat * nat) :=
  (0, 1, 2) :: (0, 2, 1) :: (1, 2, 0) :: (1, 0, 2) :: (2, 0, 1) :: (2, 1, 0) :: nil.

Definition inversions3 (p : nat * nat * nat) : nat :=
  let '(a, b, c) := p in
  (if Nat.ltb b a then 1 else 0) + (if Nat.ltb c a then 1 else 0)
  + (if Nat.ltb c b then 1 else 0).

Definition leibniz3 {T : Type} `{Scalar T} (m : matrix T) : T :=
  fold_left
    (fun acc p =>
       let '(a, b, c) := p in
       let term := (mget m 0 a * mget m 1 b * mget m 2 c)%S in
       if Nat.even (inversions3 p) then (acc + term)%S else (acc - term)%S)
    permutations3 0%S.

(** float64 inputs on which rounding is not small. *)

(** Rows 0 and 1 differ in one unit of the last place: determinant 2^-50. *)
Definition ill_conditioned : matrix float :=
  (M4 (V4 1 1                    0 0)
      (V4 1 0x1.0000000000001p+0 0 0)
      (V4 0 0                    3 0)
      (V4 0 0                    0 1))%float.

(** Last column (0,0,0,1); the cell 2^54 absorbs the products next to it. *)
Definition cancelling : matrix float :=
  (M4 (V4 0x1p54 0 1 0)
      (V4 3      1 1 0)
      (V4 0      1 1 0)
      (V4 0      0 0 1))%float.

(** A model-view matrix, last column (0,0,0,1), rows 0 and 1 one and two
    units of the last place apart: determinant -2^-53. *)
Definition near_singular_mv : matrix float :=
  (M4 (V4 1                     1                     0 0)
      (V4 0x1.fffffffffffffp-1  0x1.ffffffffffffep-1  0 0)
      (V4 0                     0                     1 0)
      (V4 0                     0                     0 1))%float.

(** A valid near plane, 2^-70, below half a unit of the last place of far. *)
Definition tiny_near : float := 0x1p-70%float.

(** Rows 0 and 2 are the same row. *)
Definition repeated_row : matrix float :=
  (M4 (V4 0x1p54 3 1 1)
      (V4 1      1 3 5)
      (V4 0x1p54 3 1 1)
      (V4 7      1 1 3))%float.

(** Last column (0,0,0,1); the block of rows and columns 1, 2 has
    determinant 2^-52, which the factor 3 rounds before or after the
    subtraction according to the grouping of the products. *)
Definition regrouped : matrix float :=
  (M4 (V4 3 0                    0 0)
      (V4 0 0x1.0000000000001p+0 1 0)
      (V4 0 1                    1 0)
      (V4 0 0                    0 1))%float.

(** An off-centre projection matrix: first row (3,0,0,0), shear cells in
    rows 2 and 3. *)
Definition float_off_centre : matrix float :=
  (M4 (V4 3        0     0    0)
      (V4 0        1     0    0)
      (V4 0.25     0.125 2    1)
      (V4 (-0.125) 0     (-2) 0))%float.

(** The near plane of [random_projection_matrix] when [random.random()]
    returns 0: 0 * 10 + 1e-45, the float64 nearest to 1e-45. *)
Definition generator_near : float := (0 * 10 + 0x1.6d601ad376ab9p-150)%float.

Unset Implicit Arguments.

(** * Properties *)

(** ** Python division *)

Section PyDiv.

Local Open Scope R_scope.

Lemma eq_zero_R_true (y : R) : eq_zero y = true <-> y = 0.
Proof.
  cbn. destruct (Req_dec_T y 0) as [E | N]; split; intros; congruence.
Qed.

Lemma pydiv_R_ok (x y : R) : y <> 0 -> pydiv x y = Ok (x / y).
Proof.
  intros Hy. unfold pydiv. cbn.
  destruct (Req_dec_T y 0) as [E | N]; [contradiction | reflexivity].
Qed.

Lemma pydiv_R_zero (x y : R) : y = 0 -> pydiv x y = Raise ZeroDivisionError.
Proof.
  intros Hy. unfold pydiv. cbn.
  destruct (Req_dec_T y 0) as [E | N]; [reflexivity | contradiction].
Qed.

End PyDiv.

(** ** IEEE division by zero *)

Section FloatDivision.

Local Open Scope float_scope.

Lemma eqb_zero_SF (d : float) :
  (d =? 0) = true -> exists s, Prim2SF d = S754_zero s.
Proof.
  rewrite FloatAxioms.eqb_spec.
  change (Prim2SF 0) with (S754_zero false).
  destruct (Prim2SF d) as [s | s | | s m e]; cbn; try discriminate.
  - intros _. now exists s.
  - destruct s; discriminate.
  - destruct s; discriminate.
Qed.

Lemma div_zero_nan_or_inf (x d : float) :
  (d =? 0) = true -> nan_or_inf (x / d) = true.
Proof.
  intros Hd. destruct (eqb_zero_SF d Hd) as [s Hs].
  pose proof (div_spec x d) as Hdiv. rewrite Hs in Hdiv.
  unfold nan_or_inf, is_nan, is_infinity.
  rewrite !FloatAxioms.eqb_spec, abs_spec, Hdiv.
  change (Prim2SF infinity) with (S754_infinity false).
  destruct (Prim2SF x) as [sx | sx | | sx mx ex];
    destruct s; try destruct sx; reflexivity.
Qed.

(** 0/d is the zero (of positive sign) for every positive d, infinity
    included. *)
Lemma zero_div_positive (d : float) : (0 <? d) = true -> 0 / d = 0.
Proof.
  intros Hd. apply Prim2SF_inj.
  rewrite div_spec. rewrite ltb_spec in Hd.
  change (Prim2SF 0) with (S754_zero false) in *.
  destruct (Prim2SF d) as [s | s | | s m e]; cbn in *; try discriminate.
  - destruct s; [discriminate | reflexivity].
  - destruct s; [discriminate | reflexivity].
Qed.

End FloatDivision.

Lemma zero_div_real (d : R) : (0 / d = 0)%R.
Proof. unfold Rdiv. apply Rmult_0_l. Qed.

(** ** The general determinant and inverse, in exact arithmetic *)

Ltac unfold_scalar :=
  cbv [sadd ssub smul sdiv sneg szero sone R_scalar
       mget vget mrow mcol dot vmul mmul vdiv mdiv identity
       row0 row1 row2 row3 vx vy vz vw] in *.

Ltac scalar_R :=
  cbn [sadd ssub smul sdiv sneg szero sone R_scalar
       math_tan math_radians stwo R_math] in *.

Ltac destruct_matrix m :=
  destruct m as [[? ? ? ?] [? ? ? ?] [? ? ? ?] [? ? ? ?]].

Ltac cellwise := f_equal; f_equal.

Section RealAlgebra.

Local Open Scope R_scope.

(** [m * adjugate(m)] is [determinant(m)] times the identity: the cofactor
    cells of the source are the adjugate. *)
Lemma mmul_adjugate_r (m : matrix R) :
  let d := determinant m in
  mmul m (adjugate m) = M4 (V4 d 0 0 0) (V4 0 d 0 0) (V4 0 0 d 0) (V4 0 0 0 d).
Proof.
  destruct_matrix m. unfold adjugate, determinant. unfold_scalar.
  cellwise; ring.
Qed.

Lemma mmul_inverse_l (m : matrix R) :
  determinant m <> 0 -> mmul (inverse m) m = identity.
Proof.
  intros Hd. unfold inverse, _inverse.
  remember (determinant m) as d eqn:Ed.
  destruct_matrix m. unfold adjugate, determinant in *. unfold_scalar.
  cellwise; field_simplify_eq; try exact Hd; rewrite ?Ed; ring.
Qed.

(** C1, as amended: in exact real arithmetic, for every matrix M with
    determinant(M) <> 0, M x inverse(M) is the identity matrix, inverse being
    the sixteen cofactor cells divided by determinant(M).  (In float64 the
    product can be far from the identity when the determinant is close to
    zero: [inverse_ill_conditioned_float].) *)
Theorem inverse_right_identity (m : matrix R) :
  determinant m <> 0 -> mmul m (inverse m) = identity.
Proof.
  intros Hd. unfold inverse, _inverse.
  remember (determinant m) as d eqn:Ed.
  destruct_matrix m. unfold adjugate, determinant in *. unfold_scalar.
  cellwise; field_simplify_eq; try exact Hd; rewrite ?Ed; ring.
Qed.

Lemma determinant_sample_general : determinant sample_general = 23.
Proof. unfold determinant, sample_general. unfold_scalar. ring. Qed.

Lemma inverse_right_identity_witness :
  mmul sample_general (inverse sample_general) = identity.
Proof.
  apply (inverse_right_identity sample_general).
  rewrite determinant_sample_general. lra.
Defined.

End RealAlgebra.

(** ** The Euclidean specialisation *)

Section Euclid.
Local Open Scope R_scope.

Lemma adjugate_euclidean_eq (m : matrix R) :
  euclidean m -> adjugate m = adjugate_euclidean m.
Proof.
  destruct_matrix m. unfold euclidean, adjugate, adjugate_euclidean. unfold_scalar.
  intros (H03 & H13 & H23 & H33). subst. cellwise; ring.
Qed.

Lemma determinant_euclidean_eq (m : matrix R) :
  euclidean m -> determinant m = determinant_euclidean m.
Proof.
  destruct_matrix m. unfold euclidean, determinant, determinant_euclidean. unfold_scalar.
  intros (H03 & H13 & H23 & H33). subst. ring.
Qed.

(** C2, as amended: in exact real arithmetic, for every matrix whose last
    column is exactly (0,0,0,1) the 24-term determinant equals the 6-term
    [determinant_euclidean], and when that determinant is nonzero the general
    inverse equals [inverse_euclidean].  (In float64 the two formulas round
    differently and can disagree outright: [euclidean_cancelling_float].) *)
Theorem euclidean_matches_general (m : matrix R) :
  euclidean m ->
  determinant m = determinant_euclidean m /\
  (determinant m <> 0 -> inverse m = inverse_euclidean m).
Proof.
  intros He. split.
  - now apply determinant_euclidean_eq.
  - intros _. unfold inverse, inverse_euclidean, _inverse, _inverse_euclidean.
    now rewrite adjugate_euclidean_eq, determinant_euclidean_eq.
Qed.

Lemma euclidean_sample_mv : euclidean sample_mv.
Proof. unfold euclidean, sample_mv. unfold_scalar. repeat split; reflexivity. Qed.

Lemma determinant_sample_mv : determinant sample_mv = 6.
Proof. unfold determinant, sample_mv. unfold_scalar. ring. Qed.

Lemma euclidean_matches_general_witness :
  determinant sample_mv = determinant_euclidean sample_mv /\
  (determinant sample_mv <> 0 -> inverse sample_mv = inverse_euclidean sample_mv).
Proof. exact (euclidean_matches_general sample_mv euclidean_sample_mv). Defined.

End Euclid.

Section Block.
Context {T : Type} `{Scalar T}.

(** C10: [determinant_euclidean] depends only on the upper-left 3x3 block:
    it returns the same value on any two matrices that agree on the cells
    [i,j] with i, j in 0..2, whatever their last row and column are, and
    that value is the determinant of the block (the Leibniz sum over the six
    permutations); it is a total function that never looks at the last
    column, so nothing is checked and nothing is raised. *)
Theorem determinant_euclidean_block (a b : matrix T) :
  agree3 a b ->
  determinant_euclidean a = determinant_euclidean b /\
  determinant_euclidean a = leibniz3 a.
Proof.
  intros Hab. split; [| reflexivity].
  unfold determinant_euclidean.
  repeat match goal with
         | |- context [mget a ?i ?j] => rewrite (Hab i j) by lia
         end.
  reflexivity.
Qed.
End Block.

Lemma agree3_block : agree3 block_a block_b.
Proof.
  intros i j Hi Hj.
  destruct i as [|[|[|i]]]; try lia; destruct j as [|[|[|j]]]; try lia; reflexivity.
Qed.

Lemma determinant_euclidean_block_witness :
  determinant_euclidean block_a = determinant_euclidean block_b /\
  determinant_euclidean block_a = leibniz3 block_a.
Proof. exact (determinant_euclidean_block block_a block_b agree3_block). Defined.

(** In exact arithmetic the Leibniz sum is the expansion along row 0. *)
Lemma leibniz3_cofactors (m : matrix R) :
  (leibniz3 m =
   mget m 0 0 * (mget m 1 1 * mget m 2 2 - mget m 1 2 * mget m 2 1)
   - mget m 0 1 * (mget m 1 0 * mget m 2 2 - mget m 1 2 * mget m 2 0)
   + mget m 0 2 * (mget m 1 0 * mget m 2 1 - mget m 1 1 * mget m 2 0))%R.
Proof.
  destruct_matrix m. unfold leibniz3, permutations3, inversions3.
  cbn [fold_left Nat.ltb Nat.leb Nat.even Nat.add]. unfold_scalar. ring.
Qed.

(** On a matrix whose last column is (9,8,7,4) the function still returns
    the determinant of the block. *)
Lemma block_b_not_euclidean : mget block_b 0 3 = 9%float /\ determinant_euclidean block_b = 3%float.
Proof. split; vm_compute; reflexivity. Qed.

(** ** Projection and the stereo multiplier *)

Section ProjectionFacts.
Local Open Scope R_scope.

Lemma half_fov_range (fov : R) :
  0 < fov -> fov < 180 -> 0 < radians fov / 2 < PI / 2.
Proof.
  intros H0 H180. unfold radians. pose proof PI_RGT_0 as Hpi.
  split.
  - apply Rdiv_lt_0_compat; [| lra].
    apply Rmult_lt_0_compat; [lra |]. apply Rdiv_lt_0_compat; lra.
  - replace (fov * (PI / 180) / 2) with (fov / 180 * (PI / 2)) by field.
    rewrite <- (Rmult_1_l (PI / 2)) at 2.
    apply Rmult_lt_compat_r; lra.
Qed.

Lemma tan_half_fov_pos (fov : R) :
  0 < fov -> fov < 180 -> 0 < tan (radians fov / 2).
Proof.
  intros H0 H180. destruct (half_fov_range fov H0 H180) as [Hlo Hhi].
  now apply tan_gt_0.
Qed.

(** The matrix [projection] returns when none of its divisions raises. *)
Lemma projection_ok (near far fov_horiz fov_vert : R) :
  tan (radians fov_horiz / 2) <> 0 ->
  tan (radians fov_vert / 2) <> 0 ->
  far - near <> 0 ->
  projection near far fov_horiz fov_vert =
  Ok (M4 (V4 (1 / tan (radians fov_horiz / 2)) 0 0 0)
         (V4 0 (1 / tan (radians fov_vert / 2)) 0 0)
         (V4 0 0 (far / (far - near)) 1)
         (V4 0 0 (- (far / (far - near)) * near) 0)).
Proof.
  intros Hw Hh Hq. unfold projection. scalar_R.
  rewrite !pydiv_R_ok by assumption. reflexivity.
Qed.

Lemma projection_valid (near far fov_horiz fov_vert : R) :
  valid_projection near far fov_horiz fov_vert ->
  projection near far fov_horiz fov_vert =
  Ok (M4 (V4 (1 / tan (radians fov_horiz / 2)) 0 0 0)
         (V4 0 (1 / tan (radians fov_vert / 2)) 0 0)
         (V4 0 0 (far / (far - near)) 1)
         (V4 0 0 (- (far / (far - near)) * near) 0)).
Proof.
  intros (Hn & Hf & Hh0 & Hh1 & Hv0 & Hv1).
  pose proof (tan_half_fov_pos fov_horiz Hh0 Hh1).
  pose proof (tan_half_fov_pos fov_vert Hv0 Hv1).
  apply projection_ok; lra.
Qed.

Lemma q_pos (near far : R) : 0 < near -> near < far -> 0 < far / (far - near).
Proof. intros. apply Rdiv_lt_0_compat; lra. Qed.

Lemma multiplier_ok (near far sep conv : R) :
  0 < near -> near < far ->
  nv_equiv_multiplier near far sep conv =
  Ok (M4 (V4 1 0 0 0) (V4 0 1 0 0)
         (V4 (sep * conv / (far / (far - near) * near)) 0 1 0)
         (V4 (sep - sep * conv / near) 0 0 1)).
Proof.
  intros Hn Hf. pose proof (q_pos near far Hn Hf) as Hq.
  unfold nv_equiv_multiplier. scalar_R.
  rewrite (pydiv_R_ok far) by lra. cbn [bind].
  rewrite pydiv_R_ok by (apply Rgt_not_eq, Rmult_gt_0_compat; lra). cbn [bind].
  rewrite pydiv_R_ok by lra. reflexivity.
Qed.

Lemma multiplier_inv_ok (near far sep conv : R) :
  0 < near -> near < far ->
  nv_equiv_multiplier_inv near far sep conv =
  Ok (M4 (V4 1 0 0 0) (V4 0 1 0 0)
         (V4 (- (sep * conv) / (far / (far - near) * near)) 0 1 0)
         (V4 (- sep + sep * conv / near) 0 0 1)).
Proof.
  intros Hn Hf. pose proof (q_pos near far Hn Hf) as Hq.
  unfold nv_equiv_multiplier_inv. scalar_R.
  rewrite (pydiv_R_ok far) by lra. cbn [bind].
  rewrite pydiv_R_ok by (apply Rgt_not_eq, Rmult_gt_0_compat; lra). cbn [bind].
  rewrite pydiv_R_ok by lra. reflexivity.
Qed.

(** C3, as amended: in exact real arithmetic, for valid 0 < near < far and
    fov angles in (0,180), and any separation s and convergence c,
    projection(near,far,fov_h,fov_v) x nv_equiv_multiplier(near,far,s,c) is
    the right-eye matrix returned by projection_nv_equiv with the same
    parameters; its cells (2,0) and (3,0) are the shear terms s and -s*c of
    that eye.  (In float64 the shear cell (2,0) cancels to 0 for a small
    near: [projection_multiplier_small_near_float].) *)
Theorem projection_multiplier_is_right_eye (near far fov_horiz fov_vert s c : R) :
  valid_projection near far fov_horiz fov_vert ->
  exists P S L Rt : matrix R,
    projection near far fov_horiz fov_vert = Ok P /\
    nv_equiv_multiplier near far s c = Ok S /\
    projection_nv_equiv near far fov_horiz fov_vert s c = Ok (L, Rt) /\
    mmul P S = Rt /\
    mget (mmul P S) 2 0 = s /\
    mget (mmul P S) 3 0 = - s * c.
Proof.
  intros Hv. pose proof Hv as (Hn & Hf & Hh0 & Hh1 & Hv0 & Hv1).
  pose proof (tan_half_fov_pos fov_horiz Hh0 Hh1) as Hth.
  pose proof (tan_half_fov_pos fov_vert Hv0 Hv1) as Htv.
  pose proof (q_pos near far Hn Hf) as Hq.
  eexists _, _, _, _.
  split; [apply projection_valid; exact Hv |].
  split; [apply multiplier_ok; assumption |].
  split.
  { unfold projection_nv_equiv. scalar_R. rewrite !pydiv_R_ok by lra. cbn [bind]. reflexivity. }
  assert (Hprod : forall w h : R,
    mmul (M4 (V4 w 0 0 0) (V4 0 h 0 0) (V4 0 0 (far / (far - near)) 1)
             (V4 0 0 (- (far / (far - near)) * near) 0))
         (M4 (V4 1 0 0 0) (V4 0 1 0 0)
             (V4 (s * c / (far / (far - near) * near)) 0 1 0)
             (V4 (s - s * c / near) 0 0 1)) =
    M4 (V4 w 0 0 0) (V4 0 h 0 0) (V4 s 0 (far / (far - near)) 1)
       (V4 (- s * c) 0 (- (far / (far - near)) * near) 0)).
  { intros w h. unfold_scalar. cellwise; field; lra. }
  rewrite Hprod. repeat split; reflexivity.
Qed.

Lemma valid_1_2_90_90 : valid_projection 1 2 90 90.
Proof. unfold valid_projection. lra. Qed.

Lemma projection_multiplier_is_right_eye_witness :
  exists P S L Rt : matrix R,
    projection 1 2 90 90 = Ok P /\
    nv_equiv_multiplier 1 2 (1/10) (1/2) = Ok S /\
    projection_nv_equiv 1 2 90 90 (1/10) (1/2) = Ok (L, Rt) /\
    mmul P S = Rt /\
    mget (mmul P S) 2 0 = 1/10 /\
    mget (mmul P S) 3 0 = - (1/10) * (1/2).
Proof.
  exact (projection_multiplier_is_right_eye 1 2 90 90 (1/10) (1/2) valid_1_2_90_90).
Defined.



Lemma radians_degrees (x : R) : radians (degrees x) = x.
Proof. unfold radians, degrees. field. apply PI_neq0. Qed.

Lemma degrees_radians (x : R) : degrees (radians x) = x.
Proof. unfold radians, degrees. field. apply PI_neq0. Qed.

(** fov_w reads the horizontal field of view back from a projection. *)
Lemma fov_w_projection (near far fov_horiz fov_vert : R) (P : matrix R) :
  valid_projection near far fov_horiz fov_vert ->
  projection near far fov_horiz fov_vert = Ok P ->
  fov_w P = fov_horiz.
Proof.
  intros Hv HP. rewrite (projection_valid _ _ _ _ Hv) in HP.
  injection HP as <-. destruct Hv as (Hn & Hf & Hh0 & Hh1 & Hv0 & Hv1).
  pose proof (tan_half_fov_pos fov_horiz Hh0 Hh1) as Hth.
  destruct (half_fov_range fov_horiz Hh0 Hh1) as [Hlo Hhi].
  unfold fov_w. unfold_scalar.
  replace (1 / (1 / tan (radians fov_horiz / 2))) with (tan (radians fov_horiz / 2))
    by (field; lra).
  rewrite atan_tan by lra.
  replace (2 * (radians fov_horiz / 2)) with (radians fov_horiz) by field.
  apply degrees_radians.
Qed.

(** C6, as amended: in exact real arithmetic, for every invertible
    model-view matrix mv whose last column is (0,0,0,1), and P =
    projection(near, far, fov_h, fov_v) with valid parameters,
    mv_mvp_m00i(mv, mv x P) is the top-left cell of the inverse of P, that is
    1/P[0,0] = tan(radians(fov_h)/2), which is also the tangent of half the
    angle that fov_w reads back from P.  (In float64 a determinant close to
    zero makes the result arbitrary: [mv_mvp_m00i_near_singular_float].) *)
Theorem mv_mvp_m00i_projection (mv : matrix R) (near far fov_horiz fov_vert : R) :
  euclidean mv ->
  determinant mv <> 0 ->
  valid_projection near far fov_horiz fov_vert ->
  exists P : matrix R,
    projection near far fov_horiz fov_vert = Ok P /\
    mv_mvp_m00i mv (mmul mv P) = mget (inverse P) 0 0 /\
    mv_mvp_m00i mv (mmul mv P) = 1 / mget P 0 0 /\
    mv_mvp_m00i mv (mmul mv P) = tan (radians fov_horiz / 2) /\
    mv_mvp_m00i mv (mmul mv P) = tan (radians (fov_w P) / 2).
Proof.
  intros He Hd Hv.
  eexists. split; [apply projection_valid; exact Hv |].
  rewrite (fov_w_projection near far fov_horiz fov_vert _ Hv (projection_valid _ _ _ _ Hv)).
  rewrite (determinant_euclidean_eq mv He) in Hd.
  destruct Hv as (Hn & Hf & Hh0 & Hh1 & Hv0 & Hv1).
  pose proof (tan_half_fov_pos fov_horiz Hh0 Hh1) as Hth.
  pose proof (tan_half_fov_pos fov_vert Hv0 Hv1) as Htv.
  set (th := tan (radians fov_horiz / 2)) in *.
  set (tv := tan (radians fov_vert / 2)) in *.
  assert (Hm : mv_mvp_m00i mv
                 (mmul mv (M4 (V4 (1 / th) 0 0 0) (V4 0 (1 / tv) 0 0)
                              (V4 0 0 (far / (far - near)) 1)
                              (V4 0 0 (- (far / (far - near)) * near) 0))) = th).
  { unfold mv_mvp_m00i, inverse_matrix_euclidean_m0.
    remember (determinant_euclidean mv) as d eqn:Ed.
    destruct_matrix mv. unfold determinant_euclidean in Ed. unfold_scalar.
    match goal with
    | |- 1 / ?p = _ => replace p with (1 / th)
    end.
    - field. lra.
    - field_simplify_eq; [| lra]. rewrite Ed. ring. }
  rewrite Hm. repeat split.
  - unfold inverse, _inverse, adjugate, determinant. unfold_scalar. field. lra.
  - unfold_scalar. field. lra.
Qed.

Lemma mv_mvp_m00i_projection_witness :
  exists P : matrix R,
    projection 1 2 90 90 = Ok P /\
    mv_mvp_m00i sample_mv (mmul sample_mv P) = mget (inverse P) 0 0 /\
    mv_mvp_m00i sample_mv (mmul sample_mv P) = 1 / mget P 0 0 /\
    mv_mvp_m00i sample_mv (mmul sample_mv P) = tan (radians 90 / 2) /\
    mv_mvp_m00i sample_mv (mmul sample_mv P) = tan (radians (fov_w P) / 2).
Proof.
  apply (mv_mvp_m00i_projection sample_mv 1 2 90 90 euclidean_sample_mv).
  - rewrite determinant_sample_mv. lra.
  - exact valid_1_2_90_90.
Defined.


Lemma determinant_projection (w h near far : R) :
  determinant (M4 (V4 w 0 0 0) (V4 0 h 0 0) (V4 0 0 (far / (far - near)) 1)
                  (V4 0 0 (- (far / (far - near)) * near) 0)) =
  w * h * (far / (far - near)) * near.
Proof. unfold determinant. unfold_scalar. ring. Qed.

Section NearFar.

(** numpy's [m.I]: it returns on every invertible matrix, and what it
    returns is the inverse. *)
Variable np_inv : matrix R -> result (matrix R).
Hypothesis np_inv_returns :
  forall m : matrix R, determinant m <> 0 -> exists mi, np_inv m = Ok mi.
Hypothesis np_inv_inverse :
  forall m mi : matrix R, np_inv m = Ok mi -> mmul mi m = identity.

(** C5, as amended: in exact real arithmetic, for valid 0 < near < far and
    fov angles in (0,180), find_near_far(projection(near, far, fov_h,
    fov_v)) returns the pair (near, far), numpy's [m.I] being the matrix
    inverse.  (In float64 far/(far - near) rounds to 1 for a small near and
    far is lost: [find_near_far_small_near_float].) *)
Theorem find_near_far_projection (near far fov_horiz fov_vert : R) :
  valid_projection near far fov_horiz fov_vert ->
  exists P : matrix R,
    projection near far fov_horiz fov_vert = Ok P /\
    find_near_far np_inv P = Ok (near, far).
Proof.
  intros Hv. eexists. split; [apply projection_valid; exact Hv |].
  destruct Hv as (Hn & Hf & Hh0 & Hh1 & Hv0 & Hv1).
  pose proof (tan_half_fov_pos fov_horiz Hh0 Hh1) as Hth.
  pose proof (tan_half_fov_pos fov_vert Hv0 Hv1) as Htv.
  pose proof (q_pos near far Hn Hf) as Hq.
  set (w := 1 / tan (radians fov_horiz / 2)).
  set (h := 1 / tan (radians fov_vert / 2)).
  assert (Hw : 0 < w) by (apply Rdiv_lt_0_compat; lra).
  assert (Hh : 0 < h) by (apply Rdiv_lt_0_compat; lra).
  set (P := M4 _ _ _ _).
  destruct (np_inv_returns P) as [Pi HPi].
  { unfold P. rewrite determinant_projection.
    apply Rgt_not_eq.
    apply Rmult_gt_0_compat; [apply Rmult_gt_0_compat; [apply Rmult_gt_0_compat |] |]; lra. }
  pose proof (np_inv_inverse P Pi HPi) as Hinv.
  unfold find_near_far. rewrite HPi. cbn [bind].
  destruct Pi as [[a00 a01 a02 a03] [a10 a11 a12 a13] [a20 a21 a22 a23] [a30 a31 a32 a33]].
  unfold P in *. clear P HPi.
  remember (far / (far - near)) as q eqn:Eq.
  unfold_scalar. injection Hinv as E00 E01 E02 E03 E10 E11 E12 E13 E20 E21 E22 E23 E30 E31 E32 E33.
  assert (A32 : a32 = 1) by lra.
  assert (A22 : a22 = 0) by lra.
  assert (A33 : a33 = 1 / near).
  { apply Rmult_eq_reg_l with (q * near); [| apply Rgt_not_eq, Rmult_gt_0_compat; lra].
    field_simplify; [| lra]. rewrite A32 in E32. lra. }
  assert (A23 : a23 = - 1 / (q * near)).
  { apply Rmult_eq_reg_l with (q * near); [| apply Rgt_not_eq, Rmult_gt_0_compat; lra].
    field_simplify; [| lra]. rewrite A22 in E22. lra. }
  subst a32 a22 a33 a23.
  assert (Q1 : q - 1 = near / (far - near)) by (rewrite Eq; field; lra).
  assert (Q1pos : 0 < q - 1) by (rewrite Q1; apply Rdiv_lt_0_compat; lra).
  f_equal. f_equal.
  - field. lra.
  - rewrite Eq. field. lra.
Qed.

End NearFar.

Lemma exact_inv_returns (m : matrix R) :
  determinant m <> 0 -> exists mi, exact_inv m = Ok mi.
Proof.
  intros Hd. exists (inverse m). unfold exact_inv.
  destruct (eq_zero (determinant m)) eqn:E; [| reflexivity].
  apply eq_zero_R_true in E. contradiction.
Qed.

Lemma exact_inv_inverse (m mi : matrix R) :
  exact_inv m = Ok mi -> mmul mi m = identity.
Proof.
  unfold exact_inv.
  destruct (eq_zero (determinant m)) eqn:E; [discriminate |].
  intros [= <-]. apply mmul_inverse_l.
  intros D. apply eq_zero_R_true in D. congruence.
Qed.

Lemma find_near_far_projection_witness :
  exists P : matrix R,
    projection 1 2 90 90 = Ok P /\
    find_near_far exact_inv P = Ok (1, 2).
Proof.
  exact (find_near_far_projection exact_inv exact_inv_returns exact_inv_inverse
           1 2 90 90 valid_1_2_90_90).
Defined.

End ProjectionFacts.

(** ** What the builders and the inverse do outside their domain *)

Section Validation.

Local Open Scope R_scope.

Lemma tan_3PI4 : tan (3 * (PI / 4)) = -1.
Proof.
  unfold tan. rewrite sin_3PI4, cos_3PI4.
  pose proof sqrt2_neq_0. field. assumption.
Qed.

Lemma tan_half_270 : tan (radians 270 / 2) = -1.
Proof.
  replace (radians 270 / 2) with (3 * (PI / 4)) by (unfold radians; field).
  apply tan_3PI4.
Qed.

Lemma tan_half_90 : tan (radians 90 / 2) = 1.
Proof.
  replace (radians 90 / 2) with (PI / 4) by (unfold radians; field).
  apply tan_PI4.
Qed.


(** near >= far and near <= 0 are not rejected either. *)
Lemma projection_near_beyond_far :
  projection 3 2 90 90 =
  Ok (M4 (V4 1 0 0 0) (V4 0 1 0 0) (V4 0 0 (-2) 1) (V4 0 0 6 0)).
Proof.
  rewrite projection_ok by (rewrite ?tan_half_90; lra).
  rewrite tan_half_90. do 2 f_equal; f_equal; field.
Qed.

Lemma projection_negative_near :
  projection (-1) 1 90 90 =
  Ok (M4 (V4 1 0 0 0) (V4 0 1 0 0) (V4 0 0 (1/2) 1) (V4 0 0 (1/2) 0)).
Proof.
  rewrite projection_ok by (rewrite ?tan_half_90; lra).
  rewrite tan_half_90. do 2 f_equal; f_equal; field.
Qed.

(** far == near: Python's division raises. *)
Lemma projection_far_eq_near :
  projection 1 1 90 90 = Raise ZeroDivisionError.
Proof.
  unfold projection. scalar_R. rewrite !pydiv_R_ok by (rewrite tan_half_90; lra). cbn [bind].
  rewrite pydiv_R_zero by lra. reflexivity.
Qed.

End Validation.

Section ProjectionValidation.

Context {T : Type} `{Scalar T} `{PyMath T}.
Local Open Scope scalar_scope.


End ProjectionValidation.

Section ProjectionValidationFloat.

Local Open Scope float_scope.


(** 360 degrees: w = -8165619676597685. *)
Example projection_float_360 :
  projection 1 2 360 90 =
  Ok (M4 (V4 (-8165619676597685) 0 0 0)
         (V4 0 0x1.0000000000001p+0 0 0)
         (V4 0 0 2 1)
         (V4 0 0 (-2) 0)).
Proof. vm_compute. reflexivity. Qed.

(** near > far and near < 0: a matrix all the same. *)
Example projection_float_near_beyond_far :
  projection 3 2 90 90 =
  Ok (M4 (V4 0x1.0000000000001p+0 0 0 0)
         (V4 0 0x1.0000000000001p+0 0 0)
         (V4 0 0 (-2) 1)
         (V4 0 0 6 0)).
Proof. vm_compute. reflexivity. Qed.

Example projection_float_far_eq_near :
  projection 1 1 90 90 = Raise ZeroDivisionError.
Proof. vm_compute. reflexivity. Qed.

End ProjectionValidationFloat.

Section Singular.

Local Open Scope float_scope.

(** C4, counterexample: on a matrix with two identical rows the determinant
    is zero and [inverse] returns a matrix of infinities and NaNs. *)
Lemma inverse_singular_rows_inf_nan :
  eq_zero (determinant singular_rows) = true /\
  inverse singular_rows =
  M4 (V4 neg_infinity infinity     nan nan)
     (V4 neg_infinity infinity     nan nan)
     (V4 infinity     neg_infinity nan nan)
     (V4 infinity     neg_infinity nan nan).
Proof. split; vm_compute; reflexivity. Qed.

(** C4, as amended: for every singular float64 matrix (determinant == 0)
    [inverse] raises nothing: it returns the cofactor cells divided by zero,
    a matrix whose every cell is NaN or an infinity. *)
Theorem inverse_singular_all_nan_or_inf (m : matrix float) :
  eq_zero (determinant m) = true ->
  all_cells nan_or_inf (inverse m) = true.
Proof.
  intros Hd. unfold inverse, _inverse.
  set (d := determinant m) in *. set (n := adjugate m).
  cbn [eq_zero float_scalar] in Hd.
  unfold all_cells, mdiv, vdiv. cbn [row0 row1 row2 row3 vx vy vz vw sdiv float_scalar].
  rewrite !div_zero_nan_or_inf by exact Hd. reflexivity.
Qed.

Lemma inverse_singular_all_nan_or_inf_witness :
  all_cells nan_or_inf (inverse singular_rows) = true.
Proof.
  apply (inverse_singular_all_nan_or_inf singular_rows). vm_compute. reflexivity.
Defined.

End Singular.

(** ** Composition of the builders *)

Section Composition.

Local Open Scope float_scope.

(** C8, counterexample: translate(1,2,3) x scale(2,2,2) sends neither
    (0,0,0,1) to (1,2,3,1) nor (1,0,0,1) to (3,2,3,1). *)
Lemma translate_scale_points_not_as_listed :
  vmul (V4 0 0 0 1) (mmul (translate 1 2 3) (scale 2 2 2)) <> V4 1 2 3 1 /\
  vmul (V4 1 0 0 1) (mmul (translate 1 2 3) (scale 2 2 2)) <> V4 3 2 3 1.
Proof.
  split; intros E.
  - apply (f_equal (fun v => PrimFloat.eqb (vx v) 2)) in E.
    vm_compute in E. discriminate E.
  - apply (f_equal (fun v => PrimFloat.eqb (vx v) 4)) in E.
    vm_compute in E. discriminate E.
Qed.

(** C8, as amended: translate(1,2,3) x scale(2,2,2), applied to a row vector
    on its left, sends (0,0,0,1) to (2,4,6,1) and (1,0,0,1) to (4,4,6,1): the
    translation comes first and is scaled too. *)
Theorem translate_scale_points :
  vmul (V4 0 0 0 1) (mmul (translate 1 2 3) (scale 2 2 2)) = V4 2 4 6 1 /\
  vmul (V4 1 0 0 1) (mmul (translate 1 2 3) (scale 2 2 2)) = V4 4 4 6 1.
Proof. split; vm_compute; reflexivity. Qed.

(** The values the specification lists are those of the opposite order. *)
Lemma scale_translate_points :
  vmul (V4 0 0 0 1) (mmul (scale 2 2 2) (translate 1 2 3)) = V4 1 2 3 1 /\
  vmul (V4 1 0 0 1) (mmul (scale 2 2 2) (translate 1 2 3)) = V4 3 2 3 1.
Proof. split; vm_compute; reflexivity. Qed.

(** The same points in exact arithmetic. *)
Lemma translate_scale_points_R :
  (vmul (V4 0 0 0 1) (mmul (translate 1 2 3) (scale 2 2 2)) = V4 2 4 6 1 /\
   vmul (V4 1 0 0 1) (mmul (translate 1 2 3) (scale 2 2 2)) = V4 4 4 6 1)%R.
Proof. unfold translate, scale. unfold_scalar. split; f_equal; ring. Qed.

(** The shader-style product computes the same cells as the matrix product. *)
Lemma multiply_mmul {T : Type} `{Scalar T} (m1 m2 : matrix T) :
  multiply m1 m2 = mmul m1 m2.
Proof. reflexivity. Qed.

End Composition.

(** ** The same code run on float64

    Evaluations of the float64 instance on inputs whose results are exact,
    next to the statements proved above in real arithmetic. *)

Section Float64.

Local Open Scope float_scope.

Example determinant_float_mv :
  determinant float_mv = 8 /\ determinant_euclidean float_mv = 8.
Proof. split; vm_compute; reflexivity. Qed.

Example inverse_float_mv :
  inverse float_mv =
  M4 (V4 0.5    0       0    0)
     (V4 0      0       (-1) 0)
     (V4 0      0.25    0    0)
     (V4 (-0.5) (-0.75) 2    1).
Proof. vm_compute. reflexivity. Qed.

Example mmul_inverse_float_mv :
  mmul float_mv (inverse float_mv) = identity /\
  mmul (inverse float_mv) float_mv = identity.
Proof. split; vm_compute; reflexivity. Qed.

Example mv_mvp_m00i_float :
  mv_mvp_m00i float_mv (mmul float_mv float_projection) = 2.
Proof. vm_compute. reflexivity. Qed.

Example find_near_far_float :
  find_near_far (fun m => Ok (inverse m)) float_projection = Ok (1, 2).
Proof. vm_compute. reflexivity. Qed.

Example multiplier_float :
  exists S Si : matrix float,
    nv_equiv_multiplier 1 2 0.25 0.5 = Ok S /\
    nv_equiv_multiplier_inv 1 2 0.25 0.5 = Ok Si /\
    mmul S Si = identity /\
    mmul float_projection S =
    M4 (V4 0.5 0 0 0) (V4 0 1 0 0) (V4 0.25 0 2 1) (V4 (-0.125) 0 (-2) 0).
Proof. eexists _, _. repeat split; vm_compute; reflexivity. Qed.

Example pydiv_float_zero :
  nv_equiv_multiplier 1 1 0.25 0.5 = Raise ZeroDivisionError.
Proof. vm_compute. reflexivity. Qed.

End Float64.

(** ** Where float64 departs from exact arithmetic

    Each input below is inside the domain of the statement it is checked
    against; the code is evaluated at the float64 instance. *)

Section Float64Departures.

Local Open Scope float_scope.

(** C1, counterexample: [ill_conditioned] has determinant 2^-50, not zero,
    and cell (2,2) of M x inverse(M) is 0.75, not 1. *)
Lemma inverse_ill_conditioned_float :
  eq_zero (determinant ill_conditioned) = false /\
  determinant ill_conditioned = 0x1p-50 /\
  mmul ill_conditioned (inverse ill_conditioned) =
  M4 (V4 1 0 0    0)
     (V4 0 1 0    0)
     (V4 0 0 0.75 0)
     (V4 0 0 0    1).
Proof. repeat split; vm_compute; reflexivity. Qed.

(** C2, counterexample: [cancelling] has last column (0,0,0,1); its general
    determinant is 4 and its Euclidean determinant 3, and cell (0,1) of the
    two inverses is 0.25 against 0.3333333333333333. *)
Lemma euclidean_cancelling_float :
  mcol cancelling 3 = V4 0 0 0 1 /\
  determinant cancelling = 4 /\
  determinant_euclidean cancelling = 3 /\
  mget (inverse cancelling) 0 1 = 0.25 /\
  mget (inverse_euclidean cancelling) 0 1 = 0x1.5555555555555p-2.
Proof. repeat split; vm_compute; reflexivity. Qed.

(** C3, counterexample: with near = 2^-70, far = 1, fov 90, s = 0.125 and
    c = 1, cell (2,0) of projection x nv_equiv_multiplier is 0: the shear
    term of neither eye (0.125 on the right, -0.125 on the left). *)
Lemma projection_multiplier_small_near_float :
  (0 <? tiny_near) = true /\ (tiny_near <? 1) = true /\
  exists P S L Rt : matrix float,
    projection tiny_near 1 90 90 = Ok P /\
    nv_equiv_multiplier tiny_near 1 0.125 1 = Ok S /\
    projection_nv_equiv tiny_near 1 90 90 0.125 1 = Ok (L, Rt) /\
    mget (mmul P S) 2 0 = 0 /\
    mget Rt 2 0 = 0.125 /\
    mget L 2 0 = -0.125.
Proof.
  split; [reflexivity |]. split; [reflexivity |].
  eexists _, _, _, _. repeat split; vm_compute; reflexivity.
Qed.

(** C5, counterexample: with near = 2^-70 the matrices of far = 1 and of
    far = 2 are the same matrix, so far cannot be read back from it; with
    the closed-form inverse [find_near_far] returns (2^-70, nan). *)
Lemma find_near_far_small_near_float :
  (0 <? tiny_near) = true /\ (tiny_near <? 1) = true /\
  projection tiny_near 1 90 90 = projection tiny_near 2 90 90 /\
  exists P : matrix float,
    projection tiny_near 1 90 90 = Ok P /\
    find_near_far (fun m => Ok (inverse m)) P = Ok (tiny_near, nan).
Proof.
  split; [reflexivity |]. split; [reflexivity |].
  split; [vm_compute; reflexivity |].
  eexists. split; vm_compute; reflexivity.
Qed.

(** C6, counterexample: [near_singular_mv] has last column (0,0,0,1) and a
    nonzero determinant, and with P = projection(1, 2, 90, 90)
    mv_mvp_m00i(mv, mv x P) is infinity where 1/P[0,0] and inverse(P)[0,0]
    are 0.9999999999999998. *)
Lemma mv_mvp_m00i_near_singular_float :
  mcol near_singular_mv 3 = V4 0 0 0 1 /\
  eq_zero (determinant near_singular_mv) = false /\
  exists P : matrix float,
    projection 1 2 90 90 = Ok P /\
    mv_mvp_m00i near_singular_mv (mmul near_singular_mv P) = infinity /\
    1 / mget P 0 0 = 0x1.ffffffffffffep-1 /\
    mget (inverse P) 0 0 = 0x1.ffffffffffffep-1.
Proof.
  split; [reflexivity |]. split; [vm_compute; reflexivity |].
  eexists. repeat split; vm_compute; reflexivity.
Qed.

End Float64Departures.

(** * Further properties *)

(** ** Laws of the matrix product *)

Section ProductLaws.

Local Open Scope R_scope.

Lemma mmul_assoc (a b c : matrix R) : mmul (mmul a b) c = mmul a (mmul b c).
Proof.
  destruct_matrix a; destruct_matrix b; destruct_matrix c.
  unfold_scalar. cellwise; ring.
Qed.

Lemma mmul_identity_l (a : matrix R) : mmul identity a = a.
Proof. destruct_matrix a. unfold_scalar. cellwise; ring. Qed.

Lemma mmul_identity_r (a : matrix R) : mmul a identity = a.
Proof. destruct_matrix a. unfold_scalar. cellwise; ring. Qed.

Lemma vmul_mmul (v : vec4 R) (a b : matrix R) :
  vmul v (mmul a b) = vmul (vmul v a) b.
Proof.
  destruct v; destruct_matrix a; destruct_matrix b.
  unfold_scalar. f_equal; ring.
Qed.

Lemma determinant_mmul (a b : matrix R) :
  determinant (mmul a b) = determinant a * determinant b.
Proof.
  destruct_matrix a; destruct_matrix b.
  unfold determinant. unfold_scalar. ring.
Qed.

Lemma determinant_identity : determinant (@identity R _) = 1.
Proof. unfold determinant. unfold_scalar. ring. Qed.

End ProductLaws.

Section MultiplyLaws.

Local Open Scope R_scope.

(** X1: the shader-style [multiply] computes the numpy product, is
    associative and has the identity matrix as its unit on both sides. *)
Theorem multiply_monoid (a b c : matrix R) :
  multiply a b = mmul a b /\
  multiply (multiply a b) c = multiply a (multiply b c) /\
  multiply identity a = a /\
  multiply a identity = a.
Proof.
  repeat split.
  - apply mmul_assoc.
  - apply mmul_identity_l.
  - apply mmul_identity_r.
Qed.

(** X2: under the row-vector convention [translate] adds w times the offset
    to a point (so a direction, w = 0, is not moved) and [scale] multiplies
    the first three coordinates; neither changes w. *)
Theorem builders_on_points (px py pz pw x y z : R) :
  vmul (V4 px py pz pw) (translate x y z) = V4 (px + pw * x) (py + pw * y) (pz + pw * z) pw /\
  vmul (V4 px py pz pw) (scale x y z) = V4 (px * x) (py * y) (pz * z) pw.
Proof. unfold translate, scale. unfold_scalar. split; f_equal; ring. Qed.


End MultiplyLaws.

(** ** Determinant and inverse *)

Section DeterminantLaws.

Local Open Scope R_scope.

Lemma mmul_inverse_r (m : matrix R) :
  determinant m <> 0 -> mmul m (inverse m) = identity.
Proof.
  intros Hd. unfold inverse, _inverse.
  remember (determinant m) as d eqn:Ed.
  destruct_matrix m. unfold adjugate, determinant in *. unfold_scalar.
  cellwise; field_simplify_eq; try exact Hd; rewrite ?Ed; ring.
Qed.

(** A left inverse of an invertible matrix is [inverse]. *)
Lemma inverse_unique (m n : matrix R) :
  determinant m <> 0 -> mmul n m = identity -> n = inverse m.
Proof.
  intros Hd Hn.
  rewrite <- (mmul_identity_r n), <- (mmul_inverse_r m Hd), <- mmul_assoc, Hn.
  apply mmul_identity_l.
Qed.

Lemma determinant_inverse (m : matrix R) :
  determinant m <> 0 -> determinant (inverse m) = 1 / determinant m.
Proof.
  intros Hd.
  assert (E : determinant (inverse m) * determinant m = 1).
  { rewrite <- determinant_mmul, (mmul_inverse_l m Hd). apply determinant_identity. }
  apply Rmult_eq_reg_r with (determinant m); [| exact Hd].
  rewrite E. field. exact Hd.
Qed.



(** X6: in exact real arithmetic the 24-term determinant of a matrix with
    two identical rows is zero.  (Not so on float64:
    [determinant_repeated_row_float].) *)
Theorem determinant_equal_rows (m : matrix R) (i j : nat) :
  (i < j)%nat -> (j < 4)%nat -> mrow m i = mrow m j -> determinant m = 0.
Proof.
  intros Hij Hj E. destruct_matrix m.
  destruct j as [|[|[|[|j]]]]; try lia;
    destruct i as [|[|[|i]]]; try lia;
    cbn [mrow row0 row1 row2 row3] in E; injection E as -> -> -> ->;
    unfold determinant; unfold_scalar; ring.
Qed.

Lemma determinant_equal_rows_witness :
  determinant (M4 (V4 1 2 3 4) (V4 5 6 7 8) (V4 1 2 3 4) (V4 0 1 0 1)) = 0.
Proof.
  apply (determinant_equal_rows _ 0%nat 2%nat); [lia | lia | reflexivity].
Defined.

(** X7: in exact real arithmetic, for a matrix with nonzero determinant
    [inverse] is also a left inverse, its determinant is the reciprocal, and
    inverting twice gives the matrix back.  (Not so on float64 when the
    determinant is close to zero: [inverse_not_involutive_float].) *)
Theorem inverse_involutive (m : matrix R) :
  determinant m <> 0 ->
  mmul (inverse m) m = identity /\
  determinant (inverse m) = 1 / determinant m /\
  inverse (inverse m) = m.
Proof.
  intros Hd. split; [now apply mmul_inverse_l |].
  split; [now apply determinant_inverse |].
  symmetry. apply inverse_unique.
  - rewrite (determinant_inverse m Hd). intros E.
    apply (Rmult_eq_compat_r (determinant m)) in E.
    unfold Rdiv in E. rewrite Rmult_assoc, Rinv_l, Rmult_0_l in E by exact Hd. lra.
  - now apply mmul_inverse_r.
Qed.

Lemma inverse_involutive_witness :
  mmul (inverse sample_general) sample_general = identity /\
  determinant (inverse sample_general) = 1 / determinant sample_general /\
  inverse (inverse sample_general) = sample_general.
Proof.
  apply (inverse_involutive sample_general).
  rewrite determinant_sample_general. lra.
Defined.

(** X8: in exact real arithmetic the inverse of a product of matrices with
    nonzero determinants is the product of the inverses in the opposite
    order.  (Not so on float64 when a determinant is close to zero:
    [inverse_product_float].) *)
Theorem inverse_product (a b : matrix R) :
  determinant a <> 0 -> determinant b <> 0 ->
  inverse (mmul a b) = mmul (inverse b) (inverse a).
Proof.
  intros Ha Hb. symmetry. apply inverse_unique.
  - rewrite determinant_mmul. now apply Rmult_integral_contrapositive.
  - rewrite mmul_assoc, <- (mmul_assoc (inverse a)), (mmul_inverse_l a Ha),
      mmul_identity_l.
    now apply mmul_inverse_l.
Qed.

Lemma inverse_product_witness :
  inverse (mmul sample_general sample_mv) =
  mmul (inverse sample_mv) (inverse sample_general).
Proof.
  apply (inverse_product sample_general sample_mv).
  - rewrite determinant_sample_general. lra.
  - rewrite determinant_sample_mv. lra.
Defined.

End DeterminantLaws.

(** ** Builders *)

Section Builders.

Local Open Scope R_scope.

Lemma determinant_translate (x y z : R) : determinant (translate x y z) = 1.
Proof. unfold determinant, translate. unfold_scalar. ring. Qed.

Lemma determinant_scale (x y z : R) : determinant (scale x y z) = x * y * z.
Proof. unfold determinant, scale. unfold_scalar. ring. Qed.

(** X9: in exact real arithmetic a translation has determinant 1 and its
    inverse is the opposite translation; a scale has determinant x*y*z and,
    when the three factors are nonzero, its inverse is the scale by the
    reciprocals.  (On float64 the product x*y*z can overflow:
    [scale_overflow_float].) *)
Theorem builders_inverse (x y z : R) :
  determinant (translate x y z) = 1 /\
  inverse (translate x y z) = translate (- x) (- y) (- z) /\
  determinant (scale x y z) = x * y * z /\
  (x <> 0 -> y <> 0 -> z <> 0 ->
   inverse (scale x y z) = scale (1 / x) (1 / y) (1 / z)).
Proof.
  split; [apply determinant_translate |].
  split.
  { unfold inverse. rewrite determinant_translate.
    unfold _inverse, adjugate, translate. unfold_scalar. cellwise; field. }
  split; [apply determinant_scale |].
  intros Hx Hy Hz. unfold inverse. rewrite determinant_scale.
  unfold _inverse, adjugate, scale. unfold_scalar. cellwise; field; auto.
Qed.

Lemma builders_inverse_witness :
  inverse (scale 2 4 8) = scale (1 / 2) (1 / 4) (1 / 8).
Proof.
  apply (proj2 (proj2 (proj2 (builders_inverse 2 4 8)))); lra.
Defined.

Lemma cos2_sin2 (a : R) : cos a * cos a + sin a * sin a = 1.
Proof. pose proof (sin2_cos2 a) as E. unfold Rsqr in E. lra. Qed.

Lemma radians_plus (a b : R) : radians (a + b) = radians a + radians b.
Proof. unfold radians. ring. Qed.

Lemma radians_opp (a : R) : radians (- a) = - radians a.
Proof. unfold radians. ring. Qed.

Lemma radians_0 : radians 0 = 0.
Proof. unfold radians. ring. Qed.

Lemma radians_90 : radians 90 = PI / 2.
Proof. unfold radians. field. Qed.


Lemma determinant_rotate_x (a : R) : determinant (rotate_x a) = 1.
Proof.
  pose proof (cos2_sin2 (radians a)) as E.
  unfold determinant, rotate_x. unfold_scalar. ring_simplify. lra.
Qed.

Lemma determinant_rotate_y (a : R) : determinant (rotate_y a) = 1.
Proof.
  pose proof (cos2_sin2 (radians a)) as E.
  unfold determinant, rotate_y. unfold_scalar. ring_simplify. lra.
Qed.

Lemma determinant_rotate_z (a : R) : determinant (rotate_z a) = 1.
Proof.
  pose proof (cos2_sin2 (radians a)) as E.
  unfold determinant, rotate_z. unfold_scalar. ring_simplify. lra.
Qed.

(** X11: every rotation matrix has determinant 1 and is orthogonal: its
    inverse is its transpose, which is the rotation by the opposite angle. *)
Theorem rotations_orthogonal (a : R) :
  (determinant (rotate_x a) = 1 /\
   inverse (rotate_x a) = transpose (rotate_x a) /\
   transpose (rotate_x a) = rotate_x (- a)) /\
  (determinant (rotate_y a) = 1 /\
   inverse (rotate_y a) = transpose (rotate_y a) /\
   transpose (rotate_y a) = rotate_y (- a)) /\
  (determinant (rotate_z a) = 1 /\
   inverse (rotate_z a) = transpose (rotate_z a) /\
   transpose (rotate_z a) = rotate_z (- a)).
Proof.
  pose proof (cos2_sin2 (radians a)) as E.
  pose proof (determinant_rotate_x a) as Dx.
  pose proof (determinant_rotate_y a) as Dy.
  pose proof (determinant_rotate_z a) as Dz.
  repeat split; try assumption.
  - unfold inverse. rewrite Dx. unfold _inverse, adjugate, transpose, rotate_x.
    unfold_scalar. cellwise; try (field_simplify; lra); field.
  - unfold transpose, rotate_x. rewrite radians_opp, cos_neg, sin_neg.
    unfold_scalar. cellwise; ring.
  - unfold inverse. rewrite Dy. unfold _inverse, adjugate, transpose, rotate_y.
    unfold_scalar. cellwise; try (field_simplify; lra); field.
  - unfold transpose, rotate_y. rewrite radians_opp, cos_neg, sin_neg.
    unfold_scalar. cellwise; ring.
  - unfold inverse. rewrite Dz. unfold _inverse, adjugate, transpose, rotate_z.
    unfold_scalar. cellwise; try (field_simplify; lra); field.
  - unfold transpose, rotate_z. rewrite radians_opp, cos_neg, sin_neg.
    unfold_scalar. cellwise; ring.
Qed.

(** X12: the handedness of the three rotations under the row-vector
    convention: each leaves its own axis coordinate and w alone and turns
    the other two coordinates by the angle, so that by 90 degrees [rotate_z]
    takes the x axis to the y axis, [rotate_x] the y axis to the z axis and
    [rotate_y] the z axis to the x axis. *)
Theorem rotations_on_points (angle x y z w : R) :
  vmul (V4 x y z w) (rotate_z angle) =
    V4 (x * cos (radians angle) - y * sin (radians angle))
       (x * sin (radians angle) + y * cos (radians angle)) z w /\
  vmul (V4 x y z w) (rotate_x angle) =
    V4 x (y * cos (radians angle) - z * sin (radians angle))
       (y * sin (radians angle) + z * cos (radians angle)) w /\
  vmul (V4 x y z w) (rotate_y angle) =
    V4 (z * sin (radians angle) + x * cos (radians angle)) y
       (z * cos (radians angle) - x * sin (radians angle)) w /\
  vmul (V4 1 0 0 1) (rotate_z 90) = V4 0 1 0 1 /\
  vmul (V4 0 1 0 1) (rotate_x 90) = V4 0 0 1 1 /\
  vmul (V4 0 0 1 1) (rotate_y 90) = V4 1 0 0 1.
Proof.
  unfold rotate_x, rotate_y, rotate_z. rewrite radians_90, cos_PI2, sin_PI2.
  unfold_scalar. repeat split; f_equal; ring.
Qed.

End Builders.

(** ** More on the Euclidean specialisation *)

Section EuclideanInverse.

Local Open Scope R_scope.

(** X13: in exact real arithmetic the cell [n[3,3]] that
    [_inverse_euclidean] computes before the division is the Euclidean
    determinant itself (not 1, as the source's comment guesses); after the
    division, whenever that determinant is nonzero, the cell is 1 and the
    last column of the result is (0,0,0,1), whatever the last column of the
    input.  (On float64 the cell and the determinant are rounded apart:
    [inverse_euclidean_regrouped_float].) *)
Theorem inverse_euclidean_last_column (m : matrix R) :
  mget (adjugate_euclidean m) 3 3 = determinant_euclidean m /\
  (determinant_euclidean m <> 0 ->
   mget (inverse_euclidean m) 3 3 = 1 /\ euclidean (inverse_euclidean m)).
Proof.
  split.
  - destruct_matrix m. unfold adjugate_euclidean, determinant_euclidean.
    unfold_scalar. ring.
  - intros Hd. unfold inverse_euclidean, _inverse_euclidean, euclidean.
    remember (determinant_euclidean m) as d eqn:Ed.
    destruct_matrix m. unfold adjugate_euclidean, determinant_euclidean in *.
    unfold_scalar.
    assert (E33 : forall n, n = d -> n / d = 1) by (intros n ->; field; exact Hd).
    repeat split; try (field; exact Hd); apply E33; rewrite Ed; ring.
Qed.

Lemma determinant_euclidean_scale (x y z : R) :
  determinant_euclidean (scale x y z) = x * y * z.
Proof. unfold determinant_euclidean, scale. unfold_scalar. ring. Qed.

Lemma inverse_euclidean_last_column_witness :
  mget (inverse_euclidean (scale 2 2 2)) 3 3 = 1 /\
  euclidean (inverse_euclidean (scale 2 2 2)).
Proof.
  apply (proj2 (inverse_euclidean_last_column (scale 2 2 2))).
  rewrite determinant_euclidean_scale. lra.
Defined.

Lemma euclidean_mmul (a b : matrix R) :
  euclidean a -> euclidean b -> euclidean (mmul a b).
Proof.
  destruct_matrix a; destruct_matrix b. unfold euclidean. unfold_scalar.
  intros (A0 & A1 & A2 & A3) (B0 & B1 & B2 & B3). subst.
  repeat split; ring.
Qed.

Lemma euclidean_identity : euclidean (@identity R _).
Proof. unfold euclidean. unfold_scalar. repeat split; reflexivity. Qed.

Lemma euclidean_translate (x y z : R) : euclidean (translate x y z).
Proof. unfold euclidean, translate. unfold_scalar. repeat split; reflexivity. Qed.

Lemma euclidean_scale (x y z : R) : euclidean (scale x y z).
Proof. unfold euclidean, scale. unfold_scalar. repeat split; reflexivity. Qed.

Lemma euclidean_rotate_x (a : R) : euclidean (rotate_x a).
Proof. unfold euclidean, rotate_x. unfold_scalar. repeat split; reflexivity. Qed.

Lemma euclidean_rotate_y (a : R) : euclidean (rotate_y a).
Proof. unfold euclidean, rotate_y. unfold_scalar. repeat split; reflexivity. Qed.

Lemma euclidean_rotate_z (a : R) : euclidean (rotate_z a).
Proof. unfold euclidean, rotate_z. unfold_scalar. repeat split; reflexivity. Qed.


Lemma inverse_euclidean_eq (m : matrix R) :
  euclidean m -> inverse_euclidean m = inverse m.
Proof.
  intros He. unfold inverse, inverse_euclidean, _inverse, _inverse_euclidean.
  now rewrite <- adjugate_euclidean_eq, <- determinant_euclidean_eq.
Qed.

(** X15: in exact real arithmetic, on a matrix with last column (0,0,0,1)
    and nonzero Euclidean determinant, [inverse_euclidean] is an inverse on
    both sides.  (Not so on float64 when the determinant is close to zero:
    [inverse_euclidean_regrouped_float].) *)
Theorem inverse_euclidean_two_sided (m : matrix R) :
  euclidean m -> determinant_euclidean m <> 0 ->
  mmul m (inverse_euclidean m) = identity /\
  mmul (inverse_euclidean m) m = identity.
Proof.
  intros He Hd. rewrite <- (determinant_euclidean_eq m He) in Hd.
  rewrite (inverse_euclidean_eq m He).
  split; [now apply mmul_inverse_r | now apply mmul_inverse_l].
Qed.

Lemma determinant_euclidean_sample_mv : determinant_euclidean sample_mv = 6.
Proof. unfold determinant_euclidean, sample_mv. unfold_scalar. ring. Qed.

Lemma inverse_euclidean_two_sided_witness :
  mmul sample_mv (inverse_euclidean sample_mv) = identity /\
  mmul (inverse_euclidean sample_mv) sample_mv = identity.
Proof.
  apply (inverse_euclidean_two_sided sample_mv euclidean_sample_mv).
  rewrite determinant_euclidean_sample_mv. lra.
Defined.

Lemma mv_mvp_m00i_cells (mv P : matrix R) :
  euclidean mv -> determinant mv <> 0 -> mget P 0 0 <> 0 ->
  mv_mvp_m00i mv (mmul mv P) = 1 / mget P 0 0.
Proof.
  intros He Hd Hw.
  rewrite (determinant_euclidean_eq mv He) in Hd.
  unfold mv_mvp_m00i, inverse_matrix_euclidean_m0.
  remember (determinant_euclidean mv) as d eqn:Ed.
  destruct_matrix mv; destruct_matrix P.
  unfold euclidean, determinant_euclidean in *. unfold_scalar.
  destruct He as (-> & -> & -> & ->).
  match goal with
  | |- 1 / ?p = 1 / ?w => replace p with w; [reflexivity |]
  end.
  field_simplify_eq; [| exact Hd]. rewrite Ed. ring.
Qed.

(** X17: in exact real arithmetic, for a model-view matrix with last column
    (0,0,0,1) and nonzero determinant and any matrix P with P[0,0] <> 0,
    [mv_mvp_m00i](mv, mv x P) is 1/P[0,0]; when the first row of P is
    (w,0,0,0), as in a centred, an off-centre or a stereo-corrected
    projection, that is the top-left cell of the inverse of P.  (Not so on
    float64 when the determinant of mv is close to zero:
    [mv_mvp_m00i_off_centre_float].) *)
Theorem mv_mvp_m00i_general (mv P : matrix R) :
  euclidean mv -> determinant mv <> 0 -> mget P 0 0 <> 0 ->
  mv_mvp_m00i mv (mmul mv P) = 1 / mget P 0 0 /\
  (mget P 0 1 = 0 -> mget P 0 2 = 0 -> mget P 0 3 = 0 -> determinant P <> 0 ->
   mv_mvp_m00i mv (mmul mv P) = mget (inverse P) 0 0).
Proof.
  intros He Hd Hw.
  pose proof (mv_mvp_m00i_cells mv P He Hd Hw) as Hm.
  split; [exact Hm |].
  intros H01 H02 H03 HdP. rewrite Hm. unfold inverse, _inverse.
  remember (determinant P) as dP eqn:EdP.
  destruct_matrix P. unfold adjugate, determinant in EdP |- *. unfold_scalar.
  rewrite H01, H02, H03 in *.
  field_simplify_eq; [rewrite EdP; ring | split; assumption].
Qed.

Lemma determinant_sample_off_centre : determinant sample_off_centre = 4.
Proof. unfold determinant, sample_off_centre. unfold_scalar. field. Qed.

Lemma mv_mvp_m00i_general_witness :
  mv_mvp_m00i sample_mv (mmul sample_mv sample_off_centre) = 1 / 2 /\
  mv_mvp_m00i sample_mv (mmul sample_mv sample_off_centre) =
  mget (inverse sample_off_centre) 0 0.
Proof.
  assert (H : mget sample_off_centre 0 0 = 2) by reflexivity.
  destruct (mv_mvp_m00i_general sample_mv sample_off_centre euclidean_sample_mv)
    as [H1 H2].
  - rewrite determinant_sample_mv. lra.
  - rewrite H. lra.
  - split.
    + rewrite H1, H. reflexivity.
    + apply H2; try reflexivity. rewrite determinant_sample_off_centre. lra.
Defined.

End EuclideanInverse.

Section EuclideanColumns.

Context {T : Type} `{Scalar T}.

(** X18: [inverse_euclidean] never reads the last column: it returns the same
    matrix on any two inputs that agree on their first three columns. *)
Theorem inverse_euclidean_columns (a b : matrix T) :
  agree_cols3 a b -> inverse_euclidean a = inverse_euclidean b.
Proof.
  intros Hab.
  unfold inverse_euclidean, _inverse_euclidean, adjugate_euclidean,
    determinant_euclidean.
  repeat match goal with
         | |- context [mget a ?i ?j] => rewrite (Hab i j) by lia
         end.
  reflexivity.
Qed.

(** X16: for every scalar type and every divisor d with 0/d = 0,
    [inverse_matrix_euclidean_m0](m, d) is row 0 of
    [_inverse_euclidean](m, d).  (Lane w is a literal 0 in the one and 0/d
    in the other.  The condition holds of every positive float64,
    [zero_div_positive], and of every real, [zero_div_real]; at d = 0 on
    float64 the lanes differ,
    [inverse_matrix_euclidean_m0_zero_divisor_float].) *)
Theorem inverse_matrix_euclidean_m0_is_row0 (m : matrix T) (d : T) :
  (0 / d = 0)%S ->
  inverse_matrix_euclidean_m0 m d = mrow (_inverse_euclidean m d) 0.
Proof.
  intros Hd.
  unfold inverse_matrix_euclidean_m0, _inverse_euclidean, mdiv, vdiv,
    adjugate_euclidean.
  cbn [mrow row0 vx vy vz vw]. rewrite Hd. reflexivity.
Qed.

End EuclideanColumns.

Lemma inverse_matrix_euclidean_m0_is_row0_witness :
  inverse_matrix_euclidean_m0 float_mv 8%float =
  mrow (_inverse_euclidean float_mv 8%float) 0.
Proof.
  apply (inverse_matrix_euclidean_m0_is_row0 float_mv 8%float).
  vm_compute. reflexivity.
Defined.

Lemma agree_cols3_block : agree_cols3 block_a (M4 (V4 2 0 1 9) (V4 0 3 0 8) (V4 1 0 1 7) (V4 5 6 7 4))%float.
Proof.
  intros i j Hi Hj.
  destruct i as [|[|[|[|i]]]]; try lia; destruct j as [|[|[|j]]]; try lia; reflexivity.
Qed.

Lemma inverse_euclidean_columns_witness :
  inverse_euclidean block_a =
  inverse_euclidean (M4 (V4 2 0 1 9) (V4 0 3 0 8) (V4 1 0 1 7) (V4 5 6 7 4))%float.
Proof. exact (inverse_euclidean_columns _ _ agree_cols3_block). Defined.

(** ** More on projection, the stereo matrices and point correction *)

Section StereoFacts.

Local Open Scope R_scope.

Lemma fov_h_projection (near far fov_horiz fov_vert : R) (P : matrix R) :
  valid_projection near far fov_horiz fov_vert ->
  projection near far fov_horiz fov_vert = Ok P ->
  fov_h P = fov_vert.
Proof.
  intros Hv HP. rewrite (projection_valid _ _ _ _ Hv) in HP.
  injection HP as <-. destruct Hv as (Hn & Hf & Hh0 & Hh1 & Hv0 & Hv1).
  pose proof (tan_half_fov_pos fov_vert Hv0 Hv1) as Hth.
  destruct (half_fov_range fov_vert Hv0 Hv1) as [Hlo Hhi].
  unfold fov_h. unfold_scalar.
  replace (1 / (1 / tan (radians fov_vert / 2))) with (tan (radians fov_vert / 2))
    by (field; lra).
  rewrite atan_tan by lra.
  replace (2 * (radians fov_vert / 2)) with (radians fov_vert) by field.
  apply degrees_radians.
Qed.



Lemma nv_equiv_ok (near far fov_horiz fov_vert s c : R) :
  valid_projection near far fov_horiz fov_vert ->
  projection_nv_equiv near far fov_horiz fov_vert s c =
  Ok (M4 (V4 (1 / tan (radians fov_horiz / 2)) 0 0 0)
         (V4 0 (1 / tan (radians fov_vert / 2)) 0 0)
         (V4 (- s) 0 (far / (far - near)) 1)
         (V4 (s * c) 0 (- (far / (far - near)) * near) 0),
      M4 (V4 (1 / tan (radians fov_horiz / 2)) 0 0 0)
         (V4 0 (1 / tan (radians fov_vert / 2)) 0 0)
         (V4 s 0 (far / (far - near)) 1)
         (V4 (- s * c) 0 (- (far / (far - near)) * near) 0)).
Proof.
  intros (Hn & Hf & Hh0 & Hh1 & Hv0 & Hv1).
  pose proof (tan_half_fov_pos fov_horiz Hh0 Hh1).
  pose proof (tan_half_fov_pos fov_vert Hv0 Hv1).
  unfold projection_nv_equiv. scalar_R. rewrite !pydiv_R_ok by lra. reflexivity.
Qed.

(** X20: in exact real arithmetic, for valid parameters, projection x
    nv_equiv_multiplier_inv is the left-eye matrix of [projection_nv_equiv].
    (On float64 the shear cell (2,0) of the product cancels for a small
    near: [projection_multiplier_inv_small_near_float].) *)
Theorem projection_multiplier_inv_is_left_eye (near far fov_horiz fov_vert s c : R) :
  valid_projection near far fov_horiz fov_vert ->
  exists P Si L Rt : matrix R,
    projection near far fov_horiz fov_vert = Ok P /\
    nv_equiv_multiplier_inv near far s c = Ok Si /\
    projection_nv_equiv near far fov_horiz fov_vert s c = Ok (L, Rt) /\
    mmul P Si = L.
Proof.
  intros Hv. pose proof Hv as (Hn & Hf & Hh0 & Hh1 & Hv0 & Hv1).
  pose proof (q_pos near far Hn Hf) as Hq.
  pose proof (tan_half_fov_pos fov_horiz Hh0 Hh1) as Hth.
  pose proof (tan_half_fov_pos fov_vert Hv0 Hv1) as Htv.
  eexists _, _, _, _.
  split; [apply projection_valid; exact Hv |].
  split; [apply multiplier_inv_ok; assumption |].
  split; [apply nv_equiv_ok; exact Hv |].
  unfold_scalar. cellwise; field; lra.
Qed.

Lemma projection_multiplier_inv_is_left_eye_witness :
  exists P Si L Rt : matrix R,
    projection 1 2 90 90 = Ok P /\
    nv_equiv_multiplier_inv 1 2 (1/10) (1/2) = Ok Si /\
    projection_nv_equiv 1 2 90 90 (1/10) (1/2) = Ok (L, Rt) /\
    mmul P Si = L.
Proof.
  exact (projection_multiplier_inv_is_left_eye 1 2 90 90 (1/10) (1/2) valid_1_2_90_90).
Defined.

(** X21: in exact real arithmetic the multiplier works on a composite
    matrix: for valid parameters and any model-view matrix mv,
    (mv x projection) x nv_equiv_multiplier is mv x the right-eye matrix, and
    multiplying the result by nv_equiv_multiplier_inv gives mv x projection
    back.  (On float64 the shear cells of the product cancel for a small
    near: [multiplier_on_composite_small_near_float].) *)
Theorem multiplier_on_composite (mv : matrix R) (near far fov_horiz fov_vert s c : R) :
  valid_projection near far fov_horiz fov_vert ->
  exists P S Si L Rt : matrix R,
    projection near far fov_horiz fov_vert = Ok P /\
    nv_equiv_multiplier near far s c = Ok S /\
    nv_equiv_multiplier_inv near far s c = Ok Si /\
    projection_nv_equiv near far fov_horiz fov_vert s c = Ok (L, Rt) /\
    mmul (mmul mv P) S = mmul mv Rt /\
    mmul (mmul (mmul mv P) S) Si = mmul mv P.
Proof.
  intros Hv. pose proof Hv as (Hn & Hf & Hh0 & Hh1 & Hv0 & Hv1).
  pose proof (q_pos near far Hn Hf) as Hq.
  pose proof (tan_half_fov_pos fov_horiz Hh0 Hh1) as Hth.
  pose proof (tan_half_fov_pos fov_vert Hv0 Hv1) as Htv.
  eexists _, _, _, _, _.
  split; [apply projection_valid; exact Hv |].
  split; [apply multiplier_ok; assumption |].
  split; [apply multiplier_inv_ok; assumption |].
  split; [apply nv_equiv_ok; exact Hv |].
  split.
  - rewrite mmul_assoc. f_equal. unfold_scalar. cellwise; field; lra.
  - rewrite (mmul_assoc (mmul mv _)).
    match goal with
    | |- mmul _ (mmul ?S ?Si) = _ =>
        replace (mmul S Si) with (@identity R _)
          by (unfold_scalar; cellwise; field; lra)
    end.
    apply mmul_identity_r.
Qed.

Lemma multiplier_on_composite_witness :
  exists P S Si L Rt : matrix R,
    projection 1 2 90 90 = Ok P /\
    nv_equiv_multiplier 1 2 (1/10) (1/2) = Ok S /\
    nv_equiv_multiplier_inv 1 2 (1/10) (1/2) = Ok Si /\
    projection_nv_equiv 1 2 90 90 (1/10) (1/2) = Ok (L, Rt) /\
    mmul (mmul sample_mv P) S = mmul sample_mv Rt /\
    mmul (mmul (mmul sample_mv P) S) Si = mmul sample_mv P.
Proof.
  exact (multiplier_on_composite sample_mv 1 2 90 90 (1/10) (1/2) valid_1_2_90_90).
Defined.

(** In exact arithmetic the three divisors of the multipliers vanish exactly
    when far = near, far = 0 or near = 0. *)
Lemma multiplier_raises_exact (near far s c : R) :
  (nv_equiv_multiplier near far s c = Raise ZeroDivisionError <->
   far = near \/ far = 0 \/ near = 0) /\
  (nv_equiv_multiplier_inv near far s c = Raise ZeroDivisionError <->
   far = near \/ far = 0 \/ near = 0).
Proof.
  assert (Hq : far - near <> 0 -> far <> 0 -> near <> 0 ->
               far / (far - near) * near <> 0).
  { intros H1 H2 H3. apply Rmult_integral_contrapositive. split; [| exact H3].
    unfold Rdiv. apply Rmult_integral_contrapositive. split; [exact H2 |].
    now apply Rinv_neq_0_compat. }
  unfold nv_equiv_multiplier, nv_equiv_multiplier_inv. scalar_R.
  destruct (Req_dec_T (far - near) 0) as [E1 | N1].
  { rewrite !(pydiv_R_zero far _ E1). cbn [bind].
    split; (split; [intros _; left; lra | reflexivity]). }
  rewrite !(pydiv_R_ok far _ N1). cbn [bind].
  destruct (Req_dec_T (far / (far - near) * near) 0) as [E2 | N2].
  { rewrite (pydiv_R_zero (s * c) _ E2), (pydiv_R_zero (- (s * c)) _ E2). cbn [bind].
    assert (H : far = 0 \/ near = 0).
    { destruct (Req_dec_T far 0) as [F | F]; [now left |].
      destruct (Req_dec_T near 0) as [G | G]; [now right |].
      exfalso. now apply (Hq N1 F G). }
    split; (split; [intros _; right; exact H | reflexivity]). }
  rewrite (pydiv_R_ok (s * c) _ N2), (pydiv_R_ok (- (s * c)) _ N2). cbn [bind].
  destruct (Req_dec_T near 0) as [E3 | N3].
  { exfalso. apply N2. rewrite E3. ring. }
  rewrite !(pydiv_R_ok (s * c) near N3). cbn [bind].
  assert (N4 : far <> 0).
  { intros F. apply N2. rewrite F. unfold Rdiv. ring. }
  split; (split; [discriminate | intros [H | [H | H]]; exfalso; lra]).
Qed.



End StereoFacts.

Section MultiplierErrors.

Context {T : Type} `{Scalar T}.
Local Open Scope scalar_scope.


End MultiplierErrors.

(** On float64 the divisor q * near can be zero by underflow with far and
    near nonzero and different. *)
Example multiplier_underflow_float :
  (eq_zero (0x1p-600 - 0x1p600) = false /\ eq_zero 0x1p-600 = false /\
   eq_zero 0x1p600 = false /\
   nv_equiv_multiplier 0x1p600 0x1p-600 0.125 1 = Raise ZeroDivisionError)%float.
Proof. repeat split; vm_compute; reflexivity. Qed.

(** ** More on near/far recovery *)

Section NearFarFacts.

Local Open Scope R_scope.

(** What [find_near_far] computes from a left inverse of its argument. *)
Lemma find_near_far_cells (np_inv : matrix R -> result (matrix R)) (m mi : matrix R) :
  np_inv m = Ok mi -> mmul mi m = identity ->
  mget mi 3 3 <> 0 -> mget mi 2 3 + mget mi 3 3 <> 0 ->
  find_near_far np_inv m =
  Ok (1 / mget mi 3 3, 1 / (mget mi 2 3 + mget mi 3 3)).
Proof.
  intros Hmi Hinv H33 H23. unfold find_near_far. rewrite Hmi. cbn [bind].
  destruct_matrix m; destruct_matrix mi. unfold_scalar.
  injection Hinv as E00 E01 E02 E03 E10 E11 E12 E13 E20 E21 E22 E23 E30 E31 E32 E33.
  f_equal. f_equal.
  - field_simplify_eq; [| exact H33]. lra.
  - field_simplify_eq; [| exact H23]. lra.
Qed.


(** The last column of a left inverse of a projection matrix. *)
Lemma left_inverse_projection_cells (n : matrix R) (w h q near : R) :
  q <> 0 -> near <> 0 ->
  mmul n (M4 (V4 w 0 0 0) (V4 0 h 0 0) (V4 0 0 q 1) (V4 0 0 (- q * near) 0)) = identity ->
  mget n 3 3 = 1 / near /\ mget n 2 3 = - 1 / (q * near).
Proof.
  intros Hq Hn Hinv.
  destruct n as [[a00 a01 a02 a03] [a10 a11 a12 a13] [a20 a21 a22 a23] [a30 a31 a32 a33]].
  unfold_scalar.
  injection Hinv as E00 E01 E02 E03 E10 E11 E12 E13 E20 E21 E22 E23 E30 E31 E32 E33.
  assert (Hqn : q * near <> 0) by (now apply Rmult_integral_contrapositive).
  assert (A32 : a32 = 1) by lra.
  assert (A22 : a22 = 0) by lra.
  rewrite A32 in E32. rewrite A22 in E22.
  split.
  - apply Rmult_eq_reg_l with (q * near); [| exact Hqn].
    field_simplify; [| exact Hn]. lra.
  - apply Rmult_eq_reg_l with (q * near); [| exact Hqn].
    field_simplify; [| split; assumption]. lra.
Qed.

Lemma mmul_euclidean_last_column (a mv : matrix R) (i : nat) :
  euclidean mv -> mget (mmul a mv) i 3 = mget a i 3.
Proof.
  destruct_matrix a; destruct_matrix mv. unfold euclidean. unfold_scalar.
  intros (-> & -> & -> & ->).
  destruct i as [|[|[|[|i]]]]; ring.
Qed.

Section Composite.

Variable np_inv : matrix R -> result (matrix R).
Hypothesis np_inv_returns :
  forall m : matrix R, determinant m <> 0 -> exists mi, np_inv m = Ok mi.
Hypothesis np_inv_inverse :
  forall m mi : matrix R, np_inv m = Ok mi -> mmul mi m = identity.

Lemma find_near_far_mv_projection (mv : matrix R) (near far w h : R) :
  euclidean mv -> determinant mv <> 0 ->
  0 < near -> near < far -> w <> 0 -> h <> 0 ->
  find_near_far np_inv
    (mmul mv (M4 (V4 w 0 0 0) (V4 0 h 0 0) (V4 0 0 (far / (far - near)) 1)
                 (V4 0 0 (- (far / (far - near)) * near) 0))) = Ok (near, far).
Proof.
  intros He Hd Hn Hf Hw Hh.
  pose proof (q_pos near far Hn Hf) as Hq.
  set (P := M4 _ _ _ _).
  assert (HdP : determinant P <> 0).
  { unfold P. rewrite determinant_projection.
    apply Rmult_integral_contrapositive_currified; [| lra].
    apply Rmult_integral_contrapositive_currified; [| lra].
    apply Rmult_integral_contrapositive_currified; assumption. }
  destruct (np_inv_returns (mmul mv P)) as [mi Hmi].
  { rewrite determinant_mmul. now apply Rmult_integral_contrapositive. }
  pose proof (np_inv_inverse _ _ Hmi) as Hinv.
  assert (HN : mmul (mmul mi mv) P = identity) by (now rewrite mmul_assoc).
  destruct (left_inverse_projection_cells (mmul mi mv) w h (far / (far - near)) near)
    as [N33 N23]; [lra | lra | exact HN |].
  rewrite (mmul_euclidean_last_column mi mv 3 He) in N33.
  rewrite (mmul_euclidean_last_column mi mv 2 He) in N23.
  rewrite (find_near_far_cells np_inv _ mi Hmi Hinv).
  - rewrite N33, N23. f_equal. f_equal; field; lra.
  - rewrite N33. apply Rgt_not_eq. apply Rdiv_lt_0_compat; lra.
  - rewrite N33, N23.
    replace (- 1 / (far / (far - near) * near) + 1 / near) with (1 / far)
      by (field; lra).
    apply Rgt_not_eq. apply Rdiv_lt_0_compat; lra.
Qed.

(** X25: in exact real arithmetic [find_near_far] also recovers (near, far)
    from a composite matrix: for a model-view matrix mv with last column
    (0,0,0,1) and nonzero determinant and valid parameters,
    find_near_far(mv x projection(near, far, fov_h, fov_v)) returns
    (near, far), numpy's [m.I] being the matrix inverse.  (On float64 far is
    lost when near is below the last place of far:
    [find_near_far_composite_small_near_float].) *)
Theorem find_near_far_composite (mv : matrix R) (near far fov_horiz fov_vert : R) :
  euclidean mv -> determinant mv <> 0 ->
  valid_projection near far fov_horiz fov_vert ->
  exists P : matrix R,
    projection near far fov_horiz fov_vert = Ok P /\
    find_near_far np_inv (mmul mv P) = Ok (near, far).
Proof.
  intros He Hd Hv. eexists. split; [apply projection_valid; exact Hv |].
  destruct Hv as (Hn & Hf & Hh0 & Hh1 & Hv0 & Hv1).
  pose proof (tan_half_fov_pos fov_horiz Hh0 Hh1) as Hth.
  pose proof (tan_half_fov_pos fov_vert Hv0 Hv1) as Htv.
  apply find_near_far_mv_projection; try assumption.
  - apply Rgt_not_eq. apply Rdiv_lt_0_compat; lra.
  - apply Rgt_not_eq. apply Rdiv_lt_0_compat; lra.
Qed.

End Composite.

Lemma determinant_sample_mv_neq : determinant sample_mv <> 0.
Proof. rewrite determinant_sample_mv. lra. Qed.

Lemma find_near_far_composite_witness :
  exists P : matrix R,
    projection 1 2 90 90 = Ok P /\
    find_near_far exact_inv (mmul sample_mv P) = Ok (1, 2).
Proof.
  exact (find_near_far_composite exact_inv exact_inv_returns exact_inv_inverse
           sample_mv 1 2 90 90 euclidean_sample_mv determinant_sample_mv_neq
           valid_1_2_90_90).
Defined.

End NearFarFacts.

(** ** The random generators *)

Section GeneratorFacts.

Local Open Scope R_scope.

Lemma euclidean_step_euclidean (k : R) (d : draw) : euclidean (euclidean_step k d).
Proof.
  destruct d; cbn [euclidean_step].
  - apply euclidean_translate.
  - apply euclidean_scale.
  - apply euclidean_rotate_x.
  - apply euclidean_rotate_y.
  - apply euclidean_rotate_z.
Qed.

Lemma determinant_euclidean_step (k : R) (d : draw) :
  determinant (euclidean_step k d) = draw_determinant k d.
Proof.
  destruct d; cbn [euclidean_step draw_determinant].
  - apply determinant_translate.
  - apply determinant_scale.
  - apply determinant_rotate_x.
  - apply determinant_rotate_y.
  - apply determinant_rotate_z.
Qed.

Lemma fold_steps_invariant (k : R) (draws : list draw) (m0 : matrix R) :
  euclidean m0 ->
  euclidean (fold_left (fun m d => mmul m (euclidean_step k d)) draws m0) /\
  determinant (fold_left (fun m d => mmul m (euclidean_step k d)) draws m0) =
  determinant m0 * fold_right Rmult 1 (map (draw_determinant k) draws).
Proof.
  revert m0. induction draws as [| d draws IH]; intros m0 He.
  - cbn. split; [exact He | ring].
  - cbn [fold_left map fold_right].
    destruct (IH (mmul m0 (euclidean_step k d))) as [IHe IHd].
    { apply euclidean_mmul; [exact He | apply euclidean_step_euclidean]. }
    split; [exact IHe |].
    rewrite IHd, determinant_mmul, determinant_euclidean_step. ring.
Qed.

Lemma random_euclidean_matrix_mv (draws : list draw) :
  euclidean (random_euclidean_matrix 1 draws) /\
  determinant (random_euclidean_matrix 1 draws) =
  fold_right Rmult 1 (map (draw_determinant 1) draws).
Proof.
  unfold random_euclidean_matrix.
  destruct (fold_steps_invariant 1 draws identity euclidean_identity) as [He Hd].
  split; [exact He |].
  rewrite Hd, determinant_identity. ring.
Qed.


Lemma random_near_pos (r1 : R) : unit_draw r1 -> 0 < r1 * 10 + 1e-45.
Proof. unfold unit_draw. intros [H0 H1]. lra. Qed.

(** X27: with draws in their ranges, [random_projection_matrix] passes valid
    parameters to [projection] and returns its matrix whenever the second
    draw of [random.random()] is not 0; when it is 0, far equals near and
    the call raises ZeroDivisionError. *)
Theorem random_projection_matrix_domain (r1 r2 fov_horiz fov_vert : R) :
  unit_draw r1 -> unit_draw r2 ->
  60 <= fov_horiz <= 110 -> 60 <= fov_vert <= 90 ->
  (r2 = 0 ->
   random_projection_matrix r1 r2 fov_horiz fov_vert = Raise ZeroDivisionError) /\
  (r2 <> 0 ->
   valid_projection (r1 * 10 + 1e-45) (r1 * 10 + 1e-45 + r2 * 1000)
     fov_horiz fov_vert /\
   exists P : matrix R,
     random_projection_matrix r1 r2 fov_horiz fov_vert = Ok P).
Proof.
  intros Hr1 Hr2 Hh Hv. pose proof (random_near_pos r1 Hr1) as Hn.
  unfold random_projection_matrix.
  pose proof (tan_half_fov_pos fov_horiz ltac:(lra) ltac:(lra)) as Hth.
  pose proof (tan_half_fov_pos fov_vert ltac:(lra) ltac:(lra)) as Htv.
  split.
  - intros ->. unfold projection. scalar_R.
    rewrite !pydiv_R_ok by lra. cbn [bind].
    rewrite pydiv_R_zero by lra. reflexivity.
  - intros Hr2'. destruct Hr2 as [H0 H1].
    assert (Hvalid : valid_projection (r1 * 10 + 1e-45)
                       (r1 * 10 + 1e-45 + r2 * 1000) fov_horiz fov_vert).
    { unfold valid_projection. repeat split; lra. }
    split; [exact Hvalid |].
    eexists. apply projection_valid. exact Hvalid.
Qed.

Lemma random_projection_matrix_domain_witness :
  valid_projection (1 / 10 * 10 + 1e-45) (1 / 10 * 10 + 1e-45 + 1 / 2 * 1000) 90 60 /\
  exists P : matrix R, random_projection_matrix (1 / 10) (1 / 2) 90 60 = Ok P.
Proof.
  apply (proj2 (random_projection_matrix_domain (1 / 10) (1 / 2) 90 60
                  ltac:(unfold unit_draw; lra) ltac:(unfold unit_draw; lra)
                  ltac:(lra) ltac:(lra))).
  lra.
Defined.

Section RandomMvp.

Variable np_inv : matrix R -> result (matrix R).
Hypothesis np_inv_returns :
  forall m : matrix R, determinant m <> 0 -> exists mi, np_inv m = Ok mi.
Hypothesis np_inv_inverse :
  forall m mi : matrix R, np_inv m = Ok mi -> mmul mi m = identity.

(** X28: in exact real arithmetic, on a matrix of [random_mvp] whose rounds
    drew no zero scale factor and whose second projection draw is not 0,
    [find_near_far] returns the near and far planes the generator chose and
    [mv_mvp_m00i], given the model-view factor, returns
    tan(radians(fov_h)/2).  (On float64 far is lost when the first
    projection draw is 0 and near is the 1e-45 the generator adds:
    [random_projection_far_lost_float].) *)
Theorem random_mvp_recovered (draws : list draw) (r1 r2 fov_horiz fov_vert : R) :
  fold_right Rmult 1 (map (draw_determinant 1) draws) <> 0 ->
  unit_draw r1 -> unit_draw r2 -> r2 <> 0 ->
  60 <= fov_horiz <= 110 -> 60 <= fov_vert <= 90 ->
  exists mvp : matrix R,
    random_mvp draws r1 r2 fov_horiz fov_vert = Ok mvp /\
    find_near_far np_inv mvp =
    Ok (r1 * 10 + 1e-45, r1 * 10 + 1e-45 + r2 * 1000) /\
    mv_mvp_m00i (random_euclidean_matrix 1 draws) mvp = tan (radians fov_horiz / 2).
Proof.
  intros Hdet Hr1 Hr2 Hr2' Hh Hv.
  destruct (random_euclidean_matrix_mv draws) as [He Hd].
  rewrite <- Hd in Hdet.
  pose proof (random_near_pos r1 Hr1) as Hn.
  pose proof (tan_half_fov_pos fov_horiz ltac:(lra) ltac:(lra)) as Hth.
  pose proof (tan_half_fov_pos fov_vert ltac:(lra) ltac:(lra)) as Htv.
  assert (Hvalid : valid_projection (r1 * 10 + 1e-45)
                     (r1 * 10 + 1e-45 + r2 * 1000) fov_horiz fov_vert).
  { destruct Hr2 as [H0 H1]. unfold valid_projection. repeat split; lra. }
  eexists. split.
  { unfold random_mvp, random_projection_matrix.
    rewrite (projection_valid _ _ _ _ Hvalid). cbn [bind]. reflexivity. }
  destruct Hvalid as (Hn' & Hf & _).
  split.
  - apply (find_near_far_mv_projection np_inv np_inv_returns np_inv_inverse);
      try assumption; apply Rgt_not_eq, Rdiv_lt_0_compat; lra.
  - assert (Hw : 1 / tan (radians fov_horiz / 2) <> 0)
      by (apply Rgt_not_eq, Rdiv_lt_0_compat; lra).
    rewrite mv_mvp_m00i_cells; [| exact He | exact Hdet | exact Hw].
    cbn [mget mrow vget row0 vx]. field. lra.
Qed.

End RandomMvp.

Lemma sample_draws_product :
  fold_right Rmult 1 (map (draw_determinant 1) sample_draws) <> 0.
Proof. cbn. lra. Qed.

Lemma random_mvp_recovered_witness :
  exists mvp : matrix R,
    random_mvp sample_draws (1 / 10) (1 / 2) 90 60 = Ok mvp /\
    find_near_far exact_inv mvp =
    Ok (1 / 10 * 10 + 1e-45, 1 / 10 * 10 + 1e-45 + 1 / 2 * 1000) /\
    mv_mvp_m00i (random_euclidean_matrix 1 sample_draws) mvp = tan (radians 90 / 2).
Proof.
  apply (random_mvp_recovered exact_inv exact_inv_returns exact_inv_inverse
           sample_draws (1 / 10) (1 / 2) 90 60 sample_draws_product);
    unfold unit_draw; lra.
Defined.

End GeneratorFacts.

(** ** The register versions *)

Section RegisterFacts.

Local Open Scope R_scope.

Ltac unfold_regs :=
  cbv [determinant_euclidean_asm_col_major _determinant_euclidean_asm_col_major
       inverse_euclidean_asm_col_major _inverse_euclidean_asm_col_major
       col_major_regs set_xyz set_x set_y mul3 mad3 mul4 mad4 neg3 neg4 rcp
       swz3 swz4 lane_of v3x v3y v3z] in *.

(** X29: in exact real arithmetic the register versions compute what the
    scalar ones do, whatever a fresh register holds: lane x of
    [determinant_euclidean_asm_col_major] is [determinant_euclidean], and
    when that is nonzero the four registers of
    [inverse_euclidean_asm_col_major] are the four rows of
    [inverse_euclidean].  (The two group their products differently; on
    float64 they can disagree: [register_versions_cancelling_float].) *)
Theorem register_versions_agree (fresh : vec4 R) (m : matrix R) :
  vx (determinant_euclidean_asm_col_major fresh m) = determinant_euclidean m /\
  (determinant_euclidean m <> 0 ->
   inverse_euclidean_asm_col_major fresh m =
   (mrow (inverse_euclidean m) 0, mrow (inverse_euclidean m) 1,
    mrow (inverse_euclidean m) 2, mrow (inverse_euclidean m) 3)).
Proof.
  split.
  - destruct_matrix m. destruct fresh. unfold determinant_euclidean.
    unfold_regs. unfold_scalar. ring.
  - intros Hd.
    assert (Hdet : vx (determinant_euclidean_asm_col_major fresh m) =
                   determinant_euclidean m).
    { destruct_matrix m. destruct fresh. unfold determinant_euclidean.
      unfold_regs. unfold_scalar. ring. }
    unfold inverse_euclidean_asm_col_major, inverse_euclidean, _inverse_euclidean.
    unfold determinant_euclidean_asm_col_major in Hdet.
    destruct (col_major_regs m) as [[[col0 col1] col2] col3] eqn:Ec.
    rewrite <- Hdet in *.
    remember (vx (_determinant_euclidean_asm_col_major fresh col0 col1 col2)) as d
      eqn:Ed.
    set (det := _determinant_euclidean_asm_col_major fresh col0 col1 col2) in *.
    assert (Edet : vx det = d) by (symmetry; exact Ed).
    clearbody det. clear Ed Hdet.
    destruct_matrix m. destruct fresh. destruct det.
    unfold col_major_regs in Ec. unfold_scalar.
    injection Ec as <- <- <- <-.
    unfold adjugate_euclidean. unfold_regs. unfold_scalar. subst.
    repeat match goal with |- (_, _) = (_, _) => f_equal end;
      f_equal; field; exact Hd.
Qed.

Lemma register_versions_agree_witness :
  inverse_euclidean_asm_col_major (V4 7 7 7 7) sample_mv =
  (mrow (inverse_euclidean sample_mv) 0, mrow (inverse_euclidean sample_mv) 1,
   mrow (inverse_euclidean sample_mv) 2, mrow (inverse_euclidean sample_mv) 3).
Proof.
  apply (proj2 (register_versions_agree (V4 7 7 7 7) sample_mv)).
  rewrite determinant_euclidean_sample_mv. lra.
Defined.

End RegisterFacts.

Section RegisterFloat.

Local Open Scope float_scope.

(** On float64 the registers hold the same numbers as the scalar inverse
    (the zeros of the last lane may differ in sign). *)
Example inverse_asm_float_mv :
  inverse_euclidean_asm_col_major (V4 0 0 0 0) float_mv =
  (V4 0.5 (-0) 0 0, V4 0 0 (-1) 0, V4 (-0) 0.25 0 0, V4 (-0.5) (-0.75) 2 1).
Proof. vm_compute. reflexivity. Qed.

End RegisterFloat.

(** * The further properties on float64

    The properties above that are stated in exact real arithmetic are
    identities of the formulas.  Evaluated at [float] they can fail by more
    than rounding; one input for each follows. *)

Section FurtherFloat64.

Local Open Scope float_scope.

(** Two identical rows (0 and 2): the 24-term sum is -8, not 0. *)
Example determinant_repeated_row_float :
  mrow repeated_row 0 = mrow repeated_row 2 /\
  determinant repeated_row = -8.
Proof. split; vm_compute; reflexivity. Qed.

(** [ill_conditioned] has a nonzero determinant; inverse(m) x m has 0.75 in
    cell (2,2) and inverse(inverse(m)) has 0.75 in cell (0,0), where m has
    1. *)
Example inverse_not_involutive_float :
  eq_zero (determinant ill_conditioned) = false /\
  mget (mmul (inverse ill_conditioned) ill_conditioned) 2 2 = 0.75 /\
  mget ill_conditioned 0 0 = 1 /\
  mget (inverse (inverse ill_conditioned)) 0 0 = 0.75.
Proof. repeat split; vm_compute; reflexivity. Qed.

(** With a = [ill_conditioned] and b = scale(3,1,1), both of nonzero
    determinant, cell (0,1) of inverse(a x b) is -2^50 * 0.75 and that of
    inverse(b) x inverse(a) is -2^50. *)
Example inverse_product_float :
  eq_zero (determinant ill_conditioned) = false /\
  eq_zero (determinant (scale 3 1 1)) = false /\
  mget (inverse (mmul ill_conditioned (scale 3 1 1))) 0 1 = -844424930131968 /\
  mget (mmul (inverse (scale 3 1 1)) (inverse ill_conditioned)) 0 1 =
  -1125899906842624.
Proof. repeat split; vm_compute; reflexivity. Qed.

(** scale(2^400, 2^400, 2^400): the determinant overflows, and the inverse
    is the zero matrix with NaN in cell (3,3), not scale(2^-400, ..). *)
Example scale_overflow_float :
  determinant (scale 0x1p400 0x1p400 0x1p400) = infinity /\
  inverse (scale 0x1p400 0x1p400 0x1p400) =
  M4 (V4 0 0 0 0) (V4 0 0 0 0) (V4 0 0 0 0) (V4 0 0 0 nan) /\
  scale (1 / 0x1p400) (1 / 0x1p400) (1 / 0x1p400) =
  M4 (V4 0x1p-400 0 0 0) (V4 0 0x1p-400 0 0) (V4 0 0 0x1p-400 0) (V4 0 0 0 1).
Proof. repeat split; vm_compute; reflexivity. Qed.

(** On [regrouped] the cell n[3,3] is 3 * 2^-52 and the determinant 2^-50:
    cell (3,3) of inverse_euclidean is 0.75, and so are cells (0,0) and (3,3)
    of m x inverse_euclidean(m). *)
Example inverse_euclidean_regrouped_float :
  mcol regrouped 3 = V4 0 0 0 1 /\
  eq_zero (determinant_euclidean regrouped) = false /\
  determinant_euclidean regrouped = 0x1p-50 /\
  mget (adjugate_euclidean regrouped) 3 3 = 0x1.8p-51 /\
  mget (inverse_euclidean regrouped) 3 3 = 0.75 /\
  mmul regrouped (inverse_euclidean regrouped) =
  M4 (V4 0.75 0 0 0) (V4 0 1 0 0) (V4 0 0 1 0) (V4 0 0 0 0.75).
Proof. repeat split; vm_compute; reflexivity. Qed.

(** A zero divisor: lane w is the literal 0 in [inverse_matrix_euclidean_m0]
    and 0/0 = NaN in the row of [_inverse_euclidean]. *)
Example inverse_matrix_euclidean_m0_zero_divisor_float :
  inverse_matrix_euclidean_m0 (scale 0 1 1) 0 = V4 infinity nan nan 0 /\
  mrow (_inverse_euclidean (scale 0 1 1) 0) 0 = V4 infinity nan nan nan.
Proof. split; vm_compute; reflexivity. Qed.

(** [near_singular_mv] with the off-centre projection: 0.25 where
    1/P[0,0] and inverse(P)[0,0] are 0.3333333333333333. *)
Example mv_mvp_m00i_off_centre_float :
  mcol near_singular_mv 3 = V4 0 0 0 1 /\
  eq_zero (determinant near_singular_mv) = false /\
  mv_mvp_m00i near_singular_mv (mmul near_singular_mv float_off_centre) = 0.25 /\
  1 / mget float_off_centre 0 0 = 0x1.5555555555555p-2 /\
  mget (inverse float_off_centre) 0 0 = 0x1.5555555555555p-2.
Proof. repeat split; vm_compute; reflexivity. Qed.

(** near = 2^-70, far = 1, fov 90, s = 0.125, c = 1: cell (2,0) of
    projection x nv_equiv_multiplier_inv is 0 where the left eye has
    -0.125. *)
Example projection_multiplier_inv_small_near_float :
  exists P Si L Rt : matrix float,
    projection tiny_near 1 90 90 = Ok P /\
    nv_equiv_multiplier_inv tiny_near 1 0.125 1 = Ok Si /\
    projection_nv_equiv tiny_near 1 90 90 0.125 1 = Ok (L, Rt) /\
    mget (mmul P Si) 2 0 = 0 /\
    mget L 2 0 = -0.125.
Proof. eexists _, _, _, _. repeat split; vm_compute; reflexivity. Qed.

(** The same parameters behind the model-view matrix [float_mv]: cell (3,0)
    of (mv x P) x S is 0 where mv x right eye has 1.25, and multiplying by
    the inverse multiplier does not give mv x P back. *)
Example multiplier_on_composite_small_near_float :
  exists P S Si L Rt : matrix float,
    projection tiny_near 1 90 90 = Ok P /\
    nv_equiv_multiplier tiny_near 1 0.125 1 = Ok S /\
    nv_equiv_multiplier_inv tiny_near 1 0.125 1 = Ok Si /\
    projection_nv_equiv tiny_near 1 90 90 0.125 1 = Ok (L, Rt) /\
    mget (mmul (mmul float_mv P) S) 3 0 = 0 /\
    mget (mmul float_mv Rt) 3 0 = 0x1.4000000000001p+0 /\
    mget (mmul (mmul (mmul float_mv P) S) Si) 3 0 = 0 /\
    mget (mmul float_mv P) 3 0 = 0x1.0000000000001p+0.
Proof. eexists _, _, _, _, _. repeat split; vm_compute; reflexivity. Qed.

(** Behind a model-view matrix too, the matrices of far = 1 and far = 2 are
    one matrix when near = 2^-70. *)
Example find_near_far_composite_small_near_float :
  exists P1 P2 : matrix float,
    projection tiny_near 1 90 90 = Ok P1 /\
    projection tiny_near 2 90 90 = Ok P2 /\
    mmul float_mv P1 = mmul float_mv P2.
Proof. eexists _, _. repeat split; vm_compute; reflexivity. Qed.

(** The generator with a first draw of 0: near is 1e-45, and the second
    draws 0.5 (far = 500) and 0.25 (far = 250) give one projection matrix. *)
Example random_projection_far_lost_float :
  (0 <? generator_near) = true /\
  generator_near + 0.5 * 1000 = 500 /\
  generator_near + 0.25 * 1000 = 250 /\
  exists P : matrix float,
    projection generator_near (generator_near + 0.5 * 1000) 90 90 = Ok P /\
    projection generator_near (generator_near + 0.25 * 1000) 90 90 = Ok P.
Proof.
  split; [reflexivity |]. split; [vm_compute; reflexivity |].
  split; [vm_compute; reflexivity |].
  eexists. split; vm_compute; reflexivity.
Qed.

(** On [cancelling] lane x of the register determinant is 4 where
    [determinant_euclidean] is 3, and lane w of the last register of the
    inverse is 0.75 where the scalar inverse has 1. *)
Example register_versions_cancelling_float :
  vx (determinant_euclidean_asm_col_major (V4 0 0 0 0) cancelling) = 4 /\
  determinant_euclidean cancelling = 3 /\
  vw (snd (inverse_euclidean_asm_col_major (V4 0 0 0 0) cancelling)) = 0.75 /\
  mget (inverse_euclidean cancelling) 3 3 = 1.
Proof. repeat split; vm_compute; reflexivity. Qed.

End FurtherFloat64.
